(** * CSV Explorer (pratique2/app.py): a shallow embedding and its properties

    The program is a Streamlit script built on pandas.  Its own code is
    control flow: which library call is made, with which arguments, in which
    order, and what happens when a call raises.  The embedding keeps that
    control flow as it is written:

    - Python exceptions and the side effects of the script (the Streamlit
      calls, the position of the uploaded stream, the calls to
      [pd.read_csv]) are threaded through a small state-and-exception monad
      [M]; state changes made before a [raise] survive it, as in Python.
    - The library entry points whose behaviour is not fixed by the script
      ([pd.read_csv], [DataFrame.select_dtypes], [is_numeric_dtype], the
      string-to-float conversion of [pd.to_numeric], the float formatters)
      are fields of the interfaces [Pandas] and [PyFormat]; theorems about
      the control flow hold for every implementation of them.
    - [PandasModel] gives one implementation, following the documented
      behaviour of pandas on comma-separated text without quoting.  Floats
      are idealised as rationals ([Q]), [NaN] as [None]; 64-bit ranges are
      not modelled. *)

From Stdlib Require Import List String Ascii Bool Arith ZArith QArith Qminmax Qround Qabs Lia.
From Stdlib Require Import Qpower Qfield.
From Stdlib Require Import DecimalString.
From Stdlib.Strings Require Import Byte.
From Stdlib Require Import Sorting.Permutation Sorting.Sorted.
Import ListNotations.

Local Open Scope string_scope.
Local Open Scope list_scope.

(** ** Python exceptions *)

(** The subclasses of [Exception] that [load_csv] tells apart, and every
    other one, carried with its [str(e)]. *)
Inductive exn : Type :=
| EmptyDataError                    (* pd.errors.EmptyDataError *)
| UnicodeDecodeError
| ParserError                       (* pd.errors.ParserError *)
| PyException (detail : string).    (* any other subclass of Exception *)

Inductive outcome (A : Type) : Type :=
| Ret (a : A)
| Raise (e : exn).
Arguments Ret {A} a.
Arguments Raise {A} e.

(** ** Tables *)

Inductive Dtype : Type := int64 | float64 | bool_ | object_.

Inductive Value : Type :=
| VInt (n : Z)
| VFloat (x : Q)
| VNaN
| VBool (b : bool)
| VStr (s : string).

Record Column : Type := mkColumn {
  col_name : string;
  col_dtype : Dtype;
  col_values : list Value
}.

(** A DataFrame: its columns in order and the length of its index (which
    a frame without columns still has). *)
Record DataFrame : Type := mkDataFrame {
  df_columns : list Column;
  df_nrows : nat
}.

(** A Series: index labels paired with values.  The numeric series built by
    [pd.to_numeric] holds [Some x], a finite number taken as the rational
    it denotes, or [None] ([NaN]); infinite entries and the rounding of
    float arithmetic are outside this model. *)
Definition Series (A : Type) : Type := list (nat * A).
Definition NumSeries : Type := Series (option Q).

Definition shape (df : DataFrame) : nat * nat :=
  (df_nrows df, List.length (df_columns df)).

(** [df[name]]: the column called [name], with the frame's RangeIndex. *)
Fixpoint find_column (name : string) (cols : list Column) : option Column :=
  match cols with
  | [] => None
  | c :: rest => if String.eqb (col_name c) name then Some c
                 else find_column name rest
  end.

Fixpoint with_index {A : Type} (start : nat) (l : list A) : Series A :=
  match l with
  | [] => []
  | x :: rest => (start, x) :: with_index (S start) rest
  end.

Definition getitem (df : DataFrame) (name : string) : outcome (Series Value) :=
  match find_column name (df_columns df) with
  | Some c => Ret (with_index 0 (col_values c))
  | None => Raise (PyException name)            (* KeyError *)
  end.

(** [df.head(n)] for n >= 0: the first n rows; for n < 0, all rows except
    the last |n|. *)
Definition head_count (n : Z) (len : nat) : nat :=
  if (0 <=? n)%Z then Nat.min (Z.to_nat n) len
  else len - Z.to_nat (- n).

Definition head (n : Z) (df : DataFrame) : DataFrame :=
  {| df_columns :=
       map (fun c => {| col_name := col_name c;
                        col_dtype := col_dtype c;
                        col_values := firstn (head_count n (df_nrows df))
                                             (col_values c) |})
           (df_columns df);
     df_nrows := head_count n (df_nrows df) |}.

(** [Series.head(n)] and [Series.dropna()]. *)
Definition series_head {A : Type} (n : Z) (s : Series A) : Series A :=
  firstn (head_count n (List.length s)) s.

Fixpoint dropna (s : NumSeries) : Series Q :=
  match s with
  | [] => []
  | (i, Some x) :: rest => (i, x) :: dropna rest
  | (_, None) :: rest => dropna rest
  end.

Definition is_number_dtype (d : Dtype) : bool :=
  match d with
  | int64 | float64 => true
  | bool_ | object_ => false
  end.

(** ** Numeric series: the pandas operations the script calls *)

Definition values {A : Type} (s : Series A) : list A := map snd s.

Definition Qsum (l : list Q) : Q := fold_right Qplus 0 l.


(** [Series.mean()] with the default [skipna=True]: NaN ([None]) when no
    value is present. *)
Definition mean (s : NumSeries) : option Q :=
  match values (dropna s) with
  | [] => None
  | xs => Some (Qsum xs / inject_Z (Z.of_nat (List.length xs)))
  end.

Fixpoint insert_sorted (x : Q) (l : list Q) : list Q :=
  match l with
  | [] => [x]
  | y :: rest => if Qle_bool x y then x :: l else y :: insert_sorted x rest
  end.

Definition sort_values (l : list Q) : list Q := fold_right insert_sorted [] l.

Definition median_sorted (l : list Q) : option Q :=
  let n := List.length l in
  match n with
  | O => None
  | _ => if Nat.even n
         then Some ((nth (n / 2 - 1) l 0 + nth (n / 2) l 0) / 2)
         else Some (nth (n / 2) l 0)
  end.

(** [Series.median()] with the default [skipna=True]. *)
Definition median (s : NumSeries) : option Q :=
  median_sorted (sort_values (values (dropna s))).

(** ** Histogram binning of the two chart engines *)

Definition Qmin_list (x : Q) (l : list Q) : Q := fold_left Qmin l x.
Definition Qmax_list (x : Q) (l : list Q) : Q := fold_left Qmax l x.

(** [numpy.linspace(a, b, n + 1)] *)
Definition linspace (a b : Q) (n : nat) : list Q :=
  map (fun i => a + inject_Z (Z.of_nat i) * ((b - a) / inject_Z (Z.of_nat n)))
      (seq 0 (S n)).

(** The range numpy bins over: the data's extent, (0, 1) without data, and
    half a unit on each side when all values are equal. *)
Definition hist_range (data : list Q) : Q * Q :=
  match data with
  | [] => (0, 1)
  | x :: rest =>
      let lo := Qmin_list x rest in
      let hi := Qmax_list x rest in
      if Qeq_bool lo hi then (lo - (1 # 2), hi + (1 # 2)) else (lo, hi)
  end.

(** [ax.hist(x, bins=n)]: n equal-width bins over the range. *)
Definition pyplot_bin_edges (data : list Q) (bins : Z) : outcome (list Q) :=
  if (bins <? 1)%Z
  then Raise (PyException "`bins` must be positive, when an integer")
  else let (lo, hi) := hist_range data in
       Ret (linspace lo hi (Z.to_nat bins)).

Definition pow10 (k : Z) : Q := Qpower (10 # 1) k.









(** ** The library interfaces *)

Inductive Encoding : Type := utf_8 | latin_1.

Class Pandas : Type := {
  (** [pd.read_csv] on the bytes left in the handle. *)
  read_csv : Encoding -> list byte -> outcome DataFrame;
  (** How far the call advances the handle. *)
  consumed : Encoding -> list byte -> nat;
  (** [df.select_dtypes(include="number").columns.tolist()]. *)
  select_dtypes_number : DataFrame -> outcome (list string);
  (** [pandas.api.types.is_numeric_dtype(df[col])]. *)
  is_numeric_dtype : Column -> outcome bool;
  (** The conversion of one string by [pd.to_numeric]; [None] when the text
      is not a number, and for the texts that denote NaN. *)
  str_to_float : string -> option Q
}.

Class PyFormat : Type := {
  (** [format(x, ".4g")] on a finite float. *)
  format_4g : Q -> string;
  (** [repr(x)] of a finite float, as [to_csv] writes it. *)
  float_repr : Q -> string
}.

(** ** The world the script runs in *)

Inductive Event : Type :=
| StSetPageConfig
| StTitle (s : string)
| StSidebarHeader (s : string)
| StSidebarSubheader (s : string)
| StSidebarInfo (s : string)
| StSidebarMarkdown (s : string)
| StInfo (s : string)
| StWarning (s : string)
| StError (s : string)
| StSubheader (s : string)
| StWrite (s : string)
| StMarkdown (s : string)
| StWriteDescribe (df : DataFrame)        (* st.write(df.describe(include='all')) *)
| StDataframe (df : DataFrame)
| StDownloadButton (label data file_name : string)
| StLineChart (data : Series Q)
| StBarChart (data : Series Q)
| StAltairChart (field : string) (data : Series Q) (maxbins : Z)
| StPyplot (data : Series Q) (bins : Z) (xlabel : string).

Record File : Type := mkFile {
  content : list byte;
  seekable : bool          (* whether [file.seek] exists and works *)
}.

Record World : Type := mkSession {
  st_ok : bool;                       (* Streamlit calls succeed *)
  altair_ok : bool;                   (* altair imports and renders *)
  pyplot_ok : bool;                   (* matplotlib imports and renders *)
  st_log : list Event;                (* Streamlit output so far *)
  file_pos : nat;                     (* position of the uploaded stream *)
  reads : list (Encoding * nat);      (* pd.read_csv calls: encoding, offset *)
  altair_error : string;              (* str(e) of what altair raises when
                                         it does not work *)
  pyplot_error : string               (* the same for matplotlib *)
}.

(** A session whose engines, when they do not work, are not installed. *)
Definition mkWorld (st alt py : bool) (log : list Event) (pos : nat)
    (calls : list (Encoding * nat)) : World :=
  mkSession st alt py log pos calls
            "No module named 'altair'" "No module named 'matplotlib'".

Definition M (A : Type) : Type := World -> outcome A * World.

Definition ret {A : Type} (a : A) : M A := fun w => (Ret a, w).

Definition bind {A B : Type} (c : M A) (k : A -> M B) : M B :=
  fun w => match c w with
           | (Ret a, w') => k a w'
           | (Raise e, w') => (Raise e, w')
           end.

(** [try: c except Exception as e: h e] *)
Definition try_except {A : Type} (c : M A) (h : exn -> M A) : M A :=
  fun w => match c w with
           | (Ret a, w') => (Ret a, w')
           | (Raise e, w') => h e w'
           end.

Definition lift {A : Type} (o : outcome A) : M A := fun w => (o, w).

Declare Scope py_scope.
Delimit Scope py_scope with py.
Notation "x <- c ;; k" := (bind c (fun x => k))
  (at level 61, c at next level, right associativity) : py_scope.
Notation "c ;; k" := (bind c (fun _ => k))
  (at level 61, right associativity) : py_scope.
Local Open Scope py_scope.

Definition st_emit (e : Event) : M unit :=
  fun w =>
    if st_ok w
    then (Ret tt, {| st_ok := st_ok w; altair_ok := altair_ok w;
                     pyplot_ok := pyplot_ok w;
                     st_log := st_log w ++ [e];
                     file_pos := file_pos w; reads := reads w;
                     altair_error := altair_error w;
                     pyplot_error := pyplot_error w |})
    else (Raise (PyException "streamlit"), w).

Definition st_error (msg : string) : M unit := st_emit (StError msg).

(** [file.seek(0)] *)
Definition file_seek0 (f : File) : M unit :=
  fun w =>
    if seekable f
    then (Ret tt, {| st_ok := st_ok w; altair_ok := altair_ok w;
                     pyplot_ok := pyplot_ok w; st_log := st_log w;
                     file_pos := 0; reads := reads w;
                     altair_error := altair_error w;
                     pyplot_error := pyplot_error w |})
    else (Raise (PyException "seek"), w).

Section App.

Context {PD : Pandas} {PF : PyFormat}.

(** [pd.read_csv(file, encoding=enc)]: parses what is left in the handle
    and advances it. *)
Definition pd_read_csv (f : File) (enc : Encoding) : M DataFrame :=
  fun w =>
    let data := skipn (file_pos w) (content f) in
    (read_csv enc data,
     {| st_ok := st_ok w; altair_ok := altair_ok w; pyplot_ok := pyplot_ok w;
        st_log := st_log w;
        file_pos := file_pos w + consumed enc data;
        reads := reads w ++ [(enc, file_pos w)];
        altair_error := altair_error w;
        pyplot_error := pyplot_error w |}).

(** *** load_csv *)

Definition msg_no_file : string := "Aucun fichier fourni.".
Definition msg_empty : string := "Le fichier CSV est vide.".
Definition msg_encoding : string :=
  "Erreur d'encodage du fichier CSV. Essayez un encodage différent (ex: UTF-8 / latin-1).".
Definition msg_parse : string :=
  "Erreur lors de l'analyse du CSV (format invalide).".
Definition msg_unknown (detail : string) : string :=
  "Impossible de lire le fichier CSV: " ++ detail.

(** [if show_error: try: st.error(msg) except Exception: pass] *)
Definition show (show_error : bool) (msg : string) : M unit :=
  if show_error
  then try_except (st_error msg) (fun _ => ret tt)
  else ret tt.

Definition load_csv (file : option File) (show_error : bool)
  : M (option DataFrame) :=
  match file with
  | None => show show_error msg_no_file ;; ret None
  | Some f =>
      try_except (file_seek0 f) (fun _ => ret tt) ;;
      try_except
        (df <- pd_read_csv f utf_8 ;; ret (Some df))
        (fun e =>
           match e with
           | EmptyDataError =>
               show show_error msg_empty ;; ret None
           | UnicodeDecodeError =>
               try_except
                 (file_seek0 f ;;
                  df <- pd_read_csv f latin_1 ;;
                  ret (Some df))
                 (fun _ => show show_error msg_encoding ;; ret None)
           | ParserError =>
               show show_error msg_parse ;; ret None
           | PyException detail =>
               show show_error (msg_unknown detail) ;; ret None
           end)
  end.

(** *** list_numeric_columns *)

(** [[col for col in df.columns if is_numeric_dtype(df[col])]] *)
Fixpoint numeric_by_dtype (cols : list Column) : outcome (list string) :=
  match cols with
  | [] => Ret []
  | c :: rest =>
      match is_numeric_dtype c with
      | Raise e => Raise e
      | Ret b =>
          match numeric_by_dtype rest with
          | Raise e => Raise e
          | Ret names => Ret (if b then col_name c :: names else names)
          end
      end
  end.

Definition list_numeric_columns (df : option DataFrame) : outcome (list string) :=
  match df with
  | None => Ret []
  | Some d =>
      match select_dtypes_number d with
      | Ret numeric_cols => Ret numeric_cols
      | Raise _ =>
          match numeric_by_dtype (df_columns d) with
          | Ret cols => Ret cols
          | Raise _ => Ret []
          end
      end
  end.

(** *** The pieces of main *)

(** [pd.to_numeric(series, errors='coerce')]: entry by entry; what cannot
    be converted becomes NaN at its place. *)
Definition to_num (v : Value) : option Q :=
  match v with
  | VInt n => Some (inject_Z n)
  | VFloat x => Some x
  | VNaN => None
  | VBool b => Some (if b then 1 else 0)
  | VStr s => str_to_float s
  end.

Definition to_numeric_coerce (s : Series Value) : NumSeries :=
  map (fun iv => (fst iv, to_num (snd iv))) s.

(** [f"{v:.4g}"] on a float that may be NaN. *)
Definition fmt_4g (v : option Q) : string :=
  match v with
  | None => "nan"
  | Some x => format_4g x
  end.

Definition summary_text (mean_v median_v : option Q) : string :=
  "Moyenne: " ++ fmt_4g mean_v ++ ", Médiane: " ++ fmt_4g median_v.

Definition string_of_nat (n : nat) : string :=
  NilZero.string_of_uint (Nat.to_uint n).

Definition string_of_Z (n : Z) : string :=
  NilZero.string_of_int (Z.to_int n).

(** [DataFrame.to_csv(index=False)]: a header line and one line per row,
    fields separated by commas, lines ended by a line feed; NaN is written
    as the empty field; a field is quoted when it holds a comma, a quote
    or a line break, and a lone empty field is written as two quotes. *)
Definition dquote : string := String (ascii_of_nat 34) EmptyString.
Definition newline : string := String (ascii_of_nat 10) EmptyString.

Fixpoint needs_quote (s : string) : bool :=
  match s with
  | EmptyString => false
  | String c rest =>
      let n := nat_of_ascii c in
      Nat.eqb n 44 || Nat.eqb n 34 || Nat.eqb n 10 || Nat.eqb n 13 || needs_quote rest
  end.

Fixpoint double_quotes (s : string) : string :=
  match s with
  | EmptyString => EmptyString
  | String c rest =>
      if Nat.eqb (nat_of_ascii c) 34
      then String c (String c (double_quotes rest))
      else String c (double_quotes rest)
  end.

Definition csv_field (s : string) : string :=
  if needs_quote s then dquote ++ double_quotes s ++ dquote else s.

Definition csv_line (fields : list string) : string :=
  match fields with
  | [EmptyString] => dquote ++ dquote ++ newline
  | _ => String.concat "," (map csv_field fields) ++ newline
  end.

Definition value_text (v : Value) : string :=
  match v with
  | VInt n => string_of_Z n
  | VFloat x => float_repr x
  | VNaN => ""
  | VBool true => "True"
  | VBool false => "False"
  | VStr s => s
  end.

Definition csv_row (cols : list Column) (i : nat) : list string :=
  map (fun c => value_text (nth i (col_values c) VNaN)) cols.

Definition to_csv (df : DataFrame) : string :=
  String.concat ""
    (csv_line (map col_name (df_columns df))
     :: map (fun i => csv_line (csv_row (df_columns df) i))
            (seq 0 (df_nrows df))).

Inductive ChartType : Type :=
| Line            (* "Line (série)" *)
| Bar             (* "Bar" *)
| Histogramme.    (* "Histogramme" *)

(** What the widgets of one run return. *)
Record Widgets : Type := mkWidgets {
  show_head : bool;
  max_rows : Z;
  uploaded_file : option File;
  sample_button : bool;
  describe_checkbox : bool;
  selected_col_choice : nat;        (* position picked in the selectbox *)
  chart_type : ChartType;
  agg_option : bool;
  hist_bins : Z
}.

Definition exn_str (e : exn) : string :=
  match e with
  | EmptyDataError => "No columns to parse from file"
  | UnicodeDecodeError => "codec can't decode"
  | ParserError => "Error tokenizing data"
  | PyException detail => detail
  end.

(** The altair attempt: the import and the chart construction raise when
    altair does not work; the chart is shown by [st.altair_chart]. *)
Definition altair_histogram (selected_col : string) (data : Series Q)
    (hist_bins : Z) : M unit :=
  fun w =>
    if altair_ok w
    then st_emit (StAltairChart selected_col data hist_bins) w
    else (Raise (PyException (altair_error w)), w).

(** The matplotlib attempt. *)
Definition pyplot_histogram (selected_col : string) (data : Series Q)
    (hist_bins : Z) : M unit :=
  fun w =>
    if pyplot_ok w
    then match pyplot_bin_edges (values data) hist_bins with
         | Ret _ => st_emit (StPyplot data hist_bins selected_col) w
         | Raise e => (Raise e, w)
         end
    else (Raise (PyException (pyplot_error w)), w).

(** The [if chart_type == ...] chain of main. *)
Definition render_chart (chart : ChartType) (selected_col : string)
    (col_series : NumSeries) (hist_bins : Z) : M unit :=
  match chart with
  | Line => st_emit (StLineChart (dropna col_series))
  | Bar => st_emit (StBarChart (series_head 100 (dropna col_series)))
  | Histogramme =>
      try_except
        (altair_histogram selected_col (dropna col_series) hist_bins)
        (fun _ =>
           try_except
             (pyplot_histogram selected_col (dropna col_series) hist_bins)
             (fun e =>
                st_error ("Impossible de tracer l'histogramme: " ++ exn_str e)))
  end.

Definition sample_df : DataFrame :=
  let vs := seq 1 20 in
  {| df_columns :=
       [ {| col_name := "x"; col_dtype := int64;
            col_values := map (fun v => VInt (Z.of_nat v)) vs |};
         {| col_name := "y"; col_dtype := int64;
            col_values := map (fun v => VInt (Z.of_nat (v * 2 + v mod 3))) vs |};
         {| col_name := "category"; col_dtype := object_;
            col_values := map (fun v => VStr (if Nat.eqb (v mod 2) 0 then "A" else "B")) vs |} ];
     df_nrows := 20 |}.

Definition when (b : bool) (c : M unit) : M unit := if b then c else ret tt.

(** What main does once the table is loaded. *)
Definition explore (wd : Widgets) (df : DataFrame) : M unit :=
  st_emit (StSubheader "Aperçu du jeu de données") ;;
  st_emit (StWrite ("Dimensions: " ++ string_of_nat (fst (shape df))
                    ++ " lignes × " ++ string_of_nat (snd (shape df))
                    ++ " colonnes")) ;;
  when (show_head wd) (st_emit (StDataframe (head (max_rows wd) df))) ;;
  when (describe_checkbox wd) (st_emit (StWriteDescribe df)) ;;
  numeric_cols <- lift (list_numeric_columns (Some df)) ;;
  st_emit (StSidebarSubheader "Graphique") ;;
  match numeric_cols with
  | [] =>
      st_emit (StSidebarInfo "Aucune colonne numérique détectée dans le CSV.") ;;
      st_emit (StWarning "Aucune colonne numérique trouvée — impossible de tracer un graphique. Vérifiez votre fichier.")
  | first :: _ =>
      let selected_col := nth (selected_col_choice wd) numeric_cols first in
      st_emit (StSidebarMarkdown "---") ;;
      column <- lift (getitem df selected_col) ;;
      let col_series := to_numeric_coerce column in
      st_emit (StSubheader ("Visualisation — " ++ selected_col)) ;;
      when (agg_option wd)
           (st_emit (StWrite (summary_text (mean col_series) (median col_series)))) ;;
      render_chart (chart_type wd) selected_col col_series (hist_bins wd) ;;
      st_emit (StMarkdown "---") ;;
      st_emit (StWrite "Vous pouvez télécharger les données affichées (CSV) :") ;;
      st_emit (StDownloadButton "Télécharger le CSV" (to_csv df) "data.csv")
  end.

Definition main (wd : Widgets) : M unit :=
  st_emit StSetPageConfig ;;
  st_emit (StTitle "CSV Explorer — Upload, aperçu et graphique") ;;
  st_emit (StSidebarHeader "Options") ;;
  match uploaded_file wd with
  | None =>
      st_emit (StInfo "Uploadez un fichier CSV depuis la barre latérale ou ici pour commencer.") ;;
      when (sample_button wd)
           (st_emit (StWrite "CSV d'exemple") ;;
            st_emit (StDataframe sample_df) ;;
            st_emit (StDownloadButton "Télécharger l'exemple" (to_csv sample_df)
                                      "sample.csv"))
  | Some f =>
      df <- load_csv (Some f) true ;;
      match df with
      | None => ret tt
      | Some df => explore wd df
      end
  end.

End App.

(** ** A model of the pandas entry points

    Comma-separated text without quoting: a quote is an ordinary
    character here, and the header names are taken as they are (pandas
    renames repeated and empty ones).  Numbers are unbounded integers and
    rationals: 64-bit overflow, infinities and float rounding are left
    out.  [plain_table] below delimits texts on which none of this
    matters. *)
Module PandasModel.

Definition continuation (n : N) : bool := ((128 <=? n) && (n <=? 191))%N.

Definition second_of_3 (a b : N) : bool :=
  (if a =? 224 then (160 <=? b) && (b <=? 191)
   else if a =? 237 then (128 <=? b) && (b <=? 159)
   else continuation b)%N.

Definition second_of_4 (a b : N) : bool :=
  (if a =? 240 then (144 <=? b) && (b <=? 191)
   else if a =? 244 then (128 <=? b) && (b <=? 143)
   else continuation b)%N.

(** Well-formed UTF-8. *)
Fixpoint utf8_valid (l : list N) : bool :=
  match l with
  | [] => true
  | a :: r1 =>
      if (a <? 128)%N then utf8_valid r1
      else if ((194 <=? a) && (a <=? 223))%N then
        match r1 with
        | b :: r2 => continuation b && utf8_valid r2
        | _ => false
        end
      else if ((224 <=? a) && (a <=? 239))%N then
        match r1 with
        | b :: c :: r3 => second_of_3 a b && continuation c && utf8_valid r3
        | _ => false
        end
      else if ((240 <=? a) && (a <=? 244))%N then
        match r1 with
        | b :: c :: d :: r4 =>
            second_of_4 a b && continuation c && continuation d && utf8_valid r4
        | _ => false
        end
      else false
  end.

(** Text is kept as a UTF-8 string; a latin-1 byte above 127 becomes the
    two bytes of its code point. *)
Definition latin1_char (b : byte) : list byte :=
  let n := Byte.to_N b in
  if (n <? 128)%N then [b]
  else match Byte.of_N (192 + n / 64), Byte.of_N (128 + n mod 64) with
       | Some hi, Some lo => [hi; lo]
       | _, _ => [b]
       end.

(** A byte order mark at the start of UTF-8 text is dropped. *)
Definition drop_bom (data : list byte) : list byte :=
  match data with
  | xef :: xbb :: xbf :: rest => rest
  | _ => data
  end.

Definition decode (enc : Encoding) (data : list byte) : outcome string :=
  match enc with
  | utf_8 =>
      if utf8_valid (map Byte.to_N data)
      then Ret (string_of_list_byte (drop_bom data))
      else Raise UnicodeDecodeError
  | latin_1 => Ret (string_of_list_byte (flat_map latin1_char data))
  end.

Fixpoint split_on (sep : ascii) (s : string) : list string :=
  match s with
  | EmptyString => [EmptyString]
  | String c rest =>
      if Ascii.eqb c sep then EmptyString :: split_on sep rest
      else match split_on sep rest with
           | [] => [String c EmptyString]
           | t :: ts => String c t :: ts
           end
  end.

Definition is_empty (s : string) : bool :=
  match s with EmptyString => true | _ => false end.

Definition is_space (c : ascii) : bool :=
  let n := nat_of_ascii c in Nat.eqb n 32 || Nat.eqb n 9.

(** The text cut at its line breaks: LF, CR LF, and CR alone. *)
Fixpoint split_lines (s : string) : list string :=
  match s with
  | EmptyString => [EmptyString]
  | String c rest =>
      let n := nat_of_ascii c in
      if Nat.eqb n 10 then EmptyString :: split_lines rest
      else if Nat.eqb n 13 then
        match rest with
        | String d rest' =>
            if Nat.eqb (nat_of_ascii d) 10
            then EmptyString :: split_lines rest'
            else EmptyString :: split_lines rest
        | EmptyString => EmptyString :: split_lines rest
        end
      else match split_lines rest with
           | [] => [String c EmptyString]
           | t :: ts => String c t :: ts
           end
  end.

(** Empty, or made of spaces and tabs only. *)
Fixpoint is_blank (s : string) : bool :=
  match s with
  | EmptyString => true
  | String c rest => is_space c && is_blank rest
  end.

(** The lines of the text, blank ones skipped. *)
Definition lines (text : string) : list string :=
  filter (fun l => negb (is_blank l)) (split_lines text).

Definition fields (line : string) : list string := split_on "," line.

Record RawTable : Type := mkRaw {
  raw_header : list string;
  raw_rows : list (list string)
}.

(** The width of the table is that of the header, or of the first data
    row when that one is longer: its surplus leading fields, and those of
    the rows after it, are then the labels of the rows (which tables here
    do not carry) and not data.  A later row wider than the table is a
    tokenizing error; a narrower one is padded with missing fields. *)
Definition tokenize (text : string) : outcome RawTable :=
  match lines text with
  | [] => Raise EmptyDataError
  | h :: rest =>
      let header := fields h in
      let rows := map fields rest in
      let width :=
        match rows with
        | [] => List.length header
        | first :: _ => Nat.max (List.length header) (List.length first)
        end in
      if forallb (fun r => List.length r <=? width)%nat rows
      then Ret {| raw_header := header;
                  raw_rows := map (skipn (width - List.length header)) rows |}
      else Raise ParserError
  end.

(** The fields of column [j], the missing ones of short rows as "". *)
Definition raw_column (t : RawTable) (j : nat) : list string :=
  map (fun r => nth j r "") (raw_rows t).

(** The texts read as missing values. *)
Definition na_values : list string :=
  [""; "#N/A"; "#N/A N/A"; "#NA"; "-1.#IND"; "-1.#QNAN"; "-NaN"; "-nan";
   "1.#IND"; "1.#QNAN"; "<NA>"; "N/A"; "NA"; "NULL"; "NaN"; "None";
   "n/a"; "nan"; "null"].

Definition is_na_token (s : string) : bool := existsb (String.eqb s) na_values.

Fixpoint lstrip (s : string) : string :=
  match s with
  | String c rest => if is_space c then lstrip rest else s
  | EmptyString => EmptyString
  end.

Fixpoint rstrip (s : string) : string :=
  match s with
  | EmptyString => EmptyString
  | String c rest =>
      match rstrip rest with
      | EmptyString => if is_space c then EmptyString else String c EmptyString
      | t => String c t
      end
  end.

Definition strip (s : string) : string := rstrip (lstrip s).

Definition digit_val (c : ascii) : option Z :=
  let n := nat_of_ascii c in
  if ((48 <=? n) && (n <=? 57))%nat then Some (Z.of_nat (n - 48)) else None.

(** The value of the longest prefix of digits, and what follows it. *)
Fixpoint digits_from (acc : Z) (s : string) : Z * string :=
  match s with
  | EmptyString => (acc, s)
  | String c rest =>
      match digit_val c with
      | Some d => digits_from (10 * acc + d)%Z rest
      | None => (acc, s)
      end
  end.

Definition parse_sign (s : string) : bool * string :=
  match s with
  | String c rest =>
      if Nat.eqb (nat_of_ascii c) 45 then (true, rest)
      else if Nat.eqb (nat_of_ascii c) 43 then (false, rest)
      else (false, s)
  | EmptyString => (false, s)
  end.

(** sign, digits *)
Definition parse_signed_digits (s : string) : option Z :=
  let (neg, r) := parse_sign s in
  let (v, rest) := digits_from 0 r in
  if negb (is_empty r) && is_empty rest
  then Some (if neg then (- v)%Z else v)
  else None.

Definition parse_int (s : string) : option Z := parse_signed_digits (strip s).

Definition parse_exponent (s : string) : option Z :=
  match s with
  | EmptyString => Some 0%Z
  | String c rest =>
      let n := nat_of_ascii c in
      if Nat.eqb n 101 || Nat.eqb n 69 then parse_signed_digits rest else None
  end.

(** sign, digits with an optional point, optional exponent *)
Definition parse_float (s : string) : option Q :=
  let (neg, r) := parse_sign (strip s) in
  let (ip, r1) := digits_from 0 r in
  let n_int := (String.length r - String.length r1)%nat in
  let '(fp, n_frac, r2) :=
    match r1 with
    | String c r' =>
        if Nat.eqb (nat_of_ascii c) 46
        then let (f, r'') := digits_from 0 r' in
             (f, (String.length r' - String.length r'')%nat, r'')
        else (0%Z, 0%nat, r1)
    | EmptyString => (0%Z, 0%nat, r1)
    end in
  if Nat.eqb (n_int + n_frac) 0 then None
  else match parse_exponent r2 with
       | None => None
       | Some e =>
           let m := inject_Z ip + inject_Z fp / pow10 (Z.of_nat n_frac) in
           Some (Qred ((if neg then - m else m) * pow10 e))
       end.

Definition is_some {A : Type} (o : option A) : bool :=
  match o with Some _ => true | None => false end.

Definition is_int_token (s : string) : bool := is_some (parse_int s).
Definition is_number_token (s : string) : bool := is_some (parse_float s).

Definition true_values : list string := ["True"; "TRUE"; "true"].
Definition false_values : list string := ["False"; "FALSE"; "false"].
Definition is_bool_token (s : string) : bool :=
  existsb (String.eqb s) true_values || existsb (String.eqb s) false_values.

Definition int_value (s : string) : Value :=
  match parse_int s with Some n => VInt n | None => VNaN end.
Definition float_value (s : string) : Value :=
  match parse_float s with Some x => VFloat x | None => VNaN end.
Definition bool_value (s : string) : Value :=
  if is_na_token s then VNaN else VBool (existsb (String.eqb s) true_values).
Definition object_value (s : string) : Value :=
  if is_na_token s then VNaN else VStr s.

(** The dtype of a column, tried in the order integer, float, boolean,
    text.  A column without rows is of dtype object; missing values turn
    an integer column into a float one and a boolean column into an object
    one. *)
Definition infer_dtype (name : string) (tokens : list string) : Column :=
  let present := filter (fun t => negb (is_na_token t)) tokens in
  let has_na := existsb is_na_token tokens in
  if forallb is_int_token present && negb has_na
  then mkColumn name int64 (map int_value tokens)
  else if forallb is_number_token present
  then mkColumn name float64 (map float_value tokens)
  else if forallb is_bool_token present
  then mkColumn name (if has_na then object_ else bool_)
                (map bool_value tokens)
  else mkColumn name object_ (map object_value tokens).

Definition infer_column (name : string) (tokens : list string) : Column :=
  match tokens with
  | [] => mkColumn name object_ []
  | _ => infer_dtype name tokens
  end.

Definition build (t : RawTable) : DataFrame :=
  {| df_columns :=
       map (fun jn => infer_column (snd jn) (raw_column t (fst jn)))
           (with_index 0 (raw_header t));
     df_nrows := List.length (raw_rows t) |}.

Definition model_read_csv (enc : Encoding) (data : list byte) : outcome DataFrame :=
  match decode enc data with
  | Raise e => Raise e
  | Ret text =>
      match tokenize text with
      | Raise e => Raise e
      | Ret t => Ret (build t)
      end
  end.

Definition numeric_columns (df : DataFrame) : list string :=
  map col_name (filter (fun c => is_number_dtype (col_dtype c)) (df_columns df)).

#[export] Instance pandas : Pandas := {
  read_csv := model_read_csv;
  consumed := fun _ data => List.length data;
  select_dtypes_number := fun df => Ret (numeric_columns df);
  is_numeric_dtype := fun c =>
    Ret (match col_dtype c with object_ => false | _ => true end);
  str_to_float := parse_float
}.

End PandasModel.

(** ** The loader's outcome, as the specification words it

    The specification describes the loader as returning Success(Table) or
    Failure(kind, message).  [load_csv] returns the table or [None] and shows
    the message; [load_outcome] is the outcome the specification's algorithm
    gives, to be compared with what [load_csv] does. *)

Inductive ErrorKind : Type :=
| NoFile
| EmptyData
| EncodingError
| ParseError
| Unknown (detail : string).

Inductive LoadOutcome : Type :=
| Success (table : DataFrame)
| Failure (kind : ErrorKind).

Definition message (k : ErrorKind) : string :=
  match k with
  | NoFile => msg_no_file
  | EmptyData => msg_empty
  | EncodingError => msg_encoding
  | ParseError => msg_parse
  | Unknown detail => msg_unknown detail
  end.

(** Where the first parse starts: at the start of the stream when it can be
    rewound, where the handle stands otherwise. *)
Definition first_offset (f : File) (w : World) : nat :=
  if seekable f then 0 else file_pos w.

Definition load_outcome {PD : Pandas} (file : option File) (w : World)
  : LoadOutcome :=
  match file with
  | None => Failure NoFile
  | Some f =>
      match read_csv utf_8 (skipn (first_offset f w) (content f)) with
      | Ret df => Success df
      | Raise EmptyDataError => Failure EmptyData
      | Raise ParserError => Failure ParseError
      | Raise (PyException detail) => Failure (Unknown detail)
      | Raise UnicodeDecodeError =>
          if seekable f
          then match read_csv latin_1 (content f) with
               | Ret df => Success df
               | Raise _ => Failure EncodingError
               end
          else Failure EncodingError
      end
  end.

Definition returned (o : LoadOutcome) : option DataFrame :=
  match o with
  | Success df => Some df
  | Failure _ => None
  end.

(** What [load_csv] shows for an outcome. *)
Definition shown (show_error : bool) (w : World) (o : LoadOutcome) : list Event :=
  match o with
  | Success _ => []
  | Failure k => if show_error && st_ok w then [StError (message k)] else []
  end.

(** The loader retried: after the first call, one more call to
    [pd.read_csv], with latin-1, from the start of the stream. *)
Definition retried_once_latin1 (w w' : World) : Prop :=
  exists off, reads w' = reads w ++ [(utf_8, off); (latin_1, 0%nat)].



(** ** Plain tables

    The texts on which what [pd.read_csv] infers is settled by the documented
    rules alone, whatever the version of pandas: a header of distinct
    names and rows of as many fields, every field empty, a decimal literal
    or a word, joined by commas, every line ended by a line feed.  There is
    no quote, no space, no plus sign before a number, no integer part
    beyond 18 digits, no exponent beyond two digits, and none of the words
    that pandas reads as a missing value, an infinity or a boolean. *)

Definition is_digit (c : ascii) : bool :=
  let n := nat_of_ascii c in ((48 <=? n) && (n <=? 57))%nat.

Definition is_letter (c : ascii) : bool :=
  let n := nat_of_ascii c in
  (((65 <=? n) && (n <=? 90)) || ((97 <=? n) && (n <=? 122)))%nat.

Definition is_word_char (c : ascii) : bool :=
  is_letter c || is_digit c || Nat.eqb (nat_of_ascii c) 95.

Fixpoint all_chars (p : ascii -> bool) (s : string) : bool :=
  match s with
  | EmptyString => true
  | String c rest => p c && all_chars p rest
  end.

Definition lower (c : ascii) : ascii :=
  let n := nat_of_ascii c in
  if ((65 <=? n) && (n <=? 90))%nat then ascii_of_nat (n + 32) else c.

Fixpoint lowercase (s : string) : string :=
  match s with
  | EmptyString => EmptyString
  | String c rest => String (lower c) (lowercase rest)
  end.

Definition reserved_words : list string :=
  ["inf"; "infinity"; "nan"; "na"; "null"; "none"; "true"; "false"].

(** A letter, then letters, digits and underscores; no reserved word in
    any case of its letters. *)
Definition plain_word (s : string) : bool :=
  match s with
  | EmptyString => false
  | String c rest =>
      is_letter c && all_chars is_word_char rest
      && negb (existsb (String.eqb (lowercase s)) reserved_words)
  end.

Fixpoint skip_digits (s : string) : string :=
  match s with
  | EmptyString => EmptyString
  | String c rest => if is_digit c then skip_digits rest else s
  end.

(** Nothing, or [e] or [E], a sign or none, and one or two digits. *)
Definition exponent_part (s : string) : bool :=
  match s with
  | EmptyString => true
  | String c rest =>
      let digits :=
        match rest with
        | String d r =>
            if Nat.eqb (nat_of_ascii d) 45 || Nat.eqb (nat_of_ascii d) 43
            then r else rest
        | EmptyString => rest
        end in
      (Nat.eqb (nat_of_ascii c) 101 || Nat.eqb (nat_of_ascii c) 69)
      && (1 <=? String.length digits)%nat && (String.length digits <=? 2)%nat
      && all_chars is_digit digits
  end.

(** One to 18 digits, then possibly a point and at least one digit, then
    possibly an exponent. *)
Definition unsigned_literal (s : string) : bool :=
  let rest := skip_digits s in
  let n := (String.length s - String.length rest)%nat in
  (1 <=? n)%nat && (n <=? 18)%nat
  && match rest with
     | EmptyString => true
     | String c frac =>
         if Nat.eqb (nat_of_ascii c) 46
         then (1 <=? String.length frac - String.length (skip_digits frac))%nat
              && exponent_part (skip_digits frac)
         else exponent_part rest
     end.

(** A real number written in decimal digits, with a minus sign or none. *)
Definition decimal_literal (s : string) : bool :=
  match s with
  | EmptyString => false
  | String c rest =>
      if Nat.eqb (nat_of_ascii c) 45 then unsigned_literal rest
      else unsigned_literal s
  end.














(** The tables a run passed to [st.dataframe], the tables whose
    [describe()] it wrote, and the data it offered for download. *)
Definition displayed_tables (log : list Event) : list DataFrame :=
  flat_map (fun e => match e with StDataframe d => [d] | _ => [] end) log.

Definition described (log : list Event) : list DataFrame :=
  flat_map (fun e => match e with StWriteDescribe d => [d] | _ => [] end) log.

Definition downloads (log : list Event) : list string :=
  flat_map (fun e => match e with
                     | StDownloadButton _ data _ => [data]
                     | _ => []
                     end) log.

(** ** Concrete inputs *)

Definition bytes (s : string) : list byte := list_byte_of_string s.

(** A fresh session in which Streamlit and both chart engines work. *)
Definition session : World := mkWorld true true true [] 0%nat [].

(** A header line and nothing else. *)
Definition header_only : File := mkFile (bytes ("a,b" ++ newline)) true.

Definition zero_bytes : File := mkFile [] true.

(** A second data row with more fields than the first. *)
Definition ragged : File :=
  mkFile (bytes ("a,b" ++ newline ++ "1,2" ++ newline ++ "1,2,3" ++ newline))
         true.


Definition mixed_table : DataFrame :=
  mkDataFrame
    [ mkColumn "a" int64 [VInt 1; VInt 2];
      mkColumn "b" object_ [VStr "x"; VStr "3"];
      mkColumn "c" float64 [VNaN; VFloat (9 # 2)] ]
    2.

(** "nom / café" in latin-1: the byte E9 is not UTF-8. *)
Definition latin1_bytes : list byte := bytes ("nom" ++ newline ++ "caf") ++ [xe9; x0a].
Definition latin1_upload : File := mkFile latin1_bytes true.
(** The same bytes behind a handle that cannot be rewound. *)
Definition latin1_pipe : File := mkFile latin1_bytes false.



(** The values 0 and 1. *)
Definition unit_interval : NumSeries :=
  [(0%nat, Some (0 # 1)); (1%nat, Some (1 # 1))].

(** Six rows of one integer column, shown five rows at a time. *)
Definition six_rows : File :=
  mkFile (bytes ("x" ++ newline ++ "1" ++ newline ++ "2" ++ newline
                 ++ "3" ++ newline ++ "4" ++ newline ++ "5" ++ newline
                 ++ "6" ++ newline)) true.

Definition head_five : Widgets :=
  mkWidgets true 5 (Some six_rows) false false 0 Line false 30.



(** The entries 1, 2, 3, missing, 5. *)
Definition one_missing : NumSeries :=
  [(0%nat, Some (1 # 1)); (1%nat, Some (2 # 1)); (2%nat, Some (3 # 1));
   (3%nat, None); (4%nat, Some (5 # 1))].

(** ** Notions for whole runs *)

(** The flags of the session, which no call of the script changes. *)
Definition same_flags (w w' : World) : Prop :=
  st_ok w' = st_ok w /\ altair_ok w' = altair_ok w
  /\ pyplot_ok w' = pyplot_ok w
  /\ altair_error w' = altair_error w /\ pyplot_error w' = pyplot_error w.

(** Run in [w], [c] returns [a] and adds [es] to what is displayed. *)
Definition displays {A : Type} (c : M A) (w : World) (a : A)
    (es : list Event) : Prop :=
  exists w', c w = (Ret a, w') /\ same_flags w w'
             /\ st_log w' = st_log w ++ es.

Definition is_chart (e : Event) : bool :=
  match e with
  | StLineChart _ | StBarChart _ | StAltairChart _ _ _ | StPyplot _ _ _ => true
  | _ => false
  end.

Definition charts (log : list Event) : list Event := filter is_chart log.

Definition errors (log : list Event) : list string :=
  flat_map (fun e => match e with StError msg => [msg] | _ => [] end) log.

(** A session in which the Streamlit calls raise. *)
Definition without_streamlit : World := mkWorld false true true [] 0%nat [].

(** pandas with a [select_dtypes] that raises. *)
Definition pandas_without_select_dtypes : Pandas := {|
  read_csv := PandasModel.model_read_csv;
  consumed := fun _ data => List.length data;
  select_dtypes_number := fun _ => Raise (PyException "select_dtypes");
  is_numeric_dtype := fun c =>
    Ret (match col_dtype c with object_ => false | _ => true end);
  str_to_float := PandasModel.parse_float
|}.

(** What the chart block displays in a session whose Streamlit calls
    work: the chart of the engine that works, or the error message. *)
Definition drawn (chart : ChartType) (selected_col : string)
    (col_series : NumSeries) (hist_bins : Z) (w : World) : Event :=
  match chart with
  | Line => StLineChart (dropna col_series)
  | Bar => StBarChart (series_head 100 (dropna col_series))
  | Histogramme =>
      if altair_ok w
      then StAltairChart selected_col (dropna col_series) hist_bins
      else
        let failed e :=
          StError ("Impossible de tracer l'histogramme: " ++ exn_str e) in
        if pyplot_ok w
        then match pyplot_bin_edges (values (dropna col_series)) hist_bins with
             | Ret _ => StPyplot (dropna col_series) hist_bins selected_col
             | Raise e => failed e
             end
        else failed (PyException (pyplot_error w))
  end.

(** The table of [six_rows]. *)
Definition six_table : DataFrame :=
  mkDataFrame
    [ mkColumn "x" int64 [VInt 1; VInt 2; VInt 3; VInt 4; VInt 5; VInt 6] ]
    6.

(** A table of texts only. *)
Definition text_only : File :=
  mkFile (bytes ("nom" ++ newline ++ "ada" ++ newline)) true.
Definition text_table : DataFrame :=
  mkDataFrame [ mkColumn "nom" object_ [VStr "ada"] ] 1.
Definition on_text : Widgets :=
  mkWidgets true 5 (Some text_only) false false 0 Line false 30.

(** What the part of main that follows a successful load displays, in a
    session whose Streamlit calls work. *)
Definition explore_shown {PF : PyFormat} (wd : Widgets) (df : DataFrame)
    (w : World) : list Event :=
  (StSubheader "Aperçu du jeu de données"
   :: StWrite ("Dimensions: " ++ string_of_nat (fst (shape df))
               ++ " lignes × " ++ string_of_nat (snd (shape df))
               ++ " colonnes")
   :: (if show_head wd then [StDataframe (head (max_rows wd) df)] else [])
   ++ (if describe_checkbox wd then [StWriteDescribe df] else [])
   ++ StSidebarSubheader "Graphique"
   :: match PandasModel.numeric_columns df with
      | [] =>
          [ StSidebarInfo "Aucune colonne numérique détectée dans le CSV.";
            StWarning "Aucune colonne numérique trouvée — impossible de tracer un graphique. Vérifiez votre fichier." ]
      | first :: rest =>
          let selected_col :=
            nth (selected_col_choice wd) (first :: rest) first in
          let col_series :=
            @to_numeric_coerce PandasModel.pandas
              match find_column selected_col (df_columns df) with
              | Some c => with_index 0 (col_values c)
              | None => []
              end in
          StSidebarMarkdown "---"
          :: StSubheader ("Visualisation — " ++ selected_col)
          :: (if agg_option wd
              then [StWrite (summary_text (mean col_series)
                                          (median col_series))]
              else [])
          ++ [ drawn (chart_type wd) selected_col col_series
                     (hist_bins wd) w;
               StMarkdown "---";
               StWrite "Vous pouvez télécharger les données affichées (CSV) :";
               StDownloadButton "Télécharger le CSV" (to_csv df) "data.csv" ]
      end).

Definition page_header : list Event :=
  [ StSetPageConfig;
    StTitle "CSV Explorer — Upload, aperçu et graphique";
    StSidebarHeader "Options" ].

(** Widgets over other uploads. *)
Definition on_empty : Widgets :=
  mkWidgets true 5 (Some zero_bytes) false false 0 Line false 30.
Definition no_upload : Widgets :=
  mkWidgets true 5 None true false 0 Line false 30.

(** A session in which neither chart engine works. *)
Definition without_engines : World := mkWorld true false false [] 0%nat [].

(** ** The summary line *)





(** ** The notes service (exam-stack/backend/app.py)

    The table [notes (id SERIAL PRIMARY KEY, content TEXT NOT NULL)] and
    the two statements the endpoints run, for one connection at a time.
    The table is the list of its rows in the order of insertion, with the
    last value drawn from the sequence behind [id]; a SERIAL column is a
    32-bit integer, and an insert past its range fails and changes
    nothing.  A content is a Python string, held here as its UTF-8 bytes;
    the driver refuses one that holds NUL or cannot be encoded, before
    anything reaches the database. *)
Module Notes.

Record Note : Type := mkNote {
  id : Z;
  content : string
}.

Record Db : Type := mkDb {
  rows : list Note;
  last_id : Z
}.

(** [CREATE TABLE IF NOT EXISTS notes ...] on a database without it. *)
Definition empty_db : Db := {| rows := []; last_id := 0 |}.

Definition serial_max : Z := 2147483647.

Fixpoint has_nul (c : string) : bool :=
  match c with
  | EmptyString => false
  | String a rest => Nat.eqb (nat_of_ascii a) 0 || has_nul rest
  end.

(** What the driver accepts as a TEXT parameter. *)
Definition storable (c : string) : bool :=
  PandasModel.utf8_valid (map Byte.to_N (list_byte_of_string c))
  && negb (has_nul c).

(** [INSERT INTO notes(content) VALUES (:c) RETURNING id, content] *)
Definition add_note (c : string) (db : Db) : outcome Note * Db :=
  if storable c
  then
    let next := (last_id db + 1)%Z in
    if (next <=? serial_max)%Z
    then let note := {| id := next; content := c |} in
         (Ret note, {| rows := rows db ++ [note]; last_id := next |})
    else (Raise (PyException "integer out of range"), db)
  else
    (Raise (PyException "A string literal cannot contain NUL (0x00) characters."),
     db).

Fixpoint insert_desc (n : Note) (l : list Note) : list Note :=
  match l with
  | [] => [n]
  | m :: rest => if (id m <=? id n)%Z then n :: l
                 else m :: insert_desc n rest
  end.

Definition order_by_id_desc (l : list Note) : list Note :=
  fold_right insert_desc [] l.

(** [SELECT id, content FROM notes ORDER BY id DESC] *)
Definition list_notes (db : Db) : list Note := order_by_id_desc (rows db).

(** The database after posting each of [contents] in turn. *)
Definition add_all (contents : list string) (db : Db) : Db :=
  fold_left (fun d c => snd (add_note c d)) contents db.

End Notes.

(** * Properties *)

(** ** load_csv *)

Ltac run_load :=
  unfold load_csv, load_outcome, first_offset, returned, shown, message,
    show, st_error, st_emit, file_seek0, pd_read_csv,
    bind, try_except, ret; simpl.

(** The run of [load_csv], for every behaviour of pandas: it returns what
    [load_outcome] classifies, and shows the message of a failure. *)
Lemma load_csv_run :
  forall (PD : Pandas) (file : option File) (show_error : bool) (w : World),
    exists w',
      load_csv file show_error w = (Ret (returned (load_outcome file w)), w')
      /\ st_log w' = st_log w ++ shown show_error w (load_outcome file w).
Proof.
  intros PD file show_error w.
  destruct file as [f|]; run_load.
  - destruct (seekable f) eqn:Hseek; simpl.
    + destruct (read_csv utf_8 (content f)) as [df|[]] eqn:Hfirst; simpl;
        try (destruct (read_csv latin_1 (content f)) as [df2|e2]; simpl);
        destruct show_error; simpl; try destruct (st_ok w) eqn:Hst; simpl;
        eexists; split; try reflexivity; simpl;
        try reflexivity; try (rewrite app_nil_r; reflexivity).
    + destruct (read_csv utf_8 (skipn (file_pos w) (content f)))
        as [df|[]] eqn:Hfirst; simpl;
        destruct show_error; simpl; try destruct (st_ok w) eqn:Hst; simpl;
        eexists; split; try reflexivity; simpl;
        try reflexivity; try (rewrite app_nil_r; reflexivity).
  - destruct show_error; simpl; try destruct (st_ok w) eqn:Hst; simpl;
      eexists; split; try reflexivity; simpl;
      try reflexivity; try (rewrite app_nil_r; reflexivity).
Qed.

(** The calls to [pd.read_csv] that a run of [load_csv] on a handle makes. *)
Lemma load_csv_reads :
  forall (PD : Pandas) (f : File) (show_error : bool) (w : World),
    reads (snd (load_csv (Some f) show_error w)) =
    reads w ++
    (utf_8, first_offset f w) ::
    match read_csv utf_8 (skipn (first_offset f w) (content f)) with
    | Raise UnicodeDecodeError => if seekable f then [(latin_1, 0%nat)] else []
    | _ => []
    end.
Proof.
  intros PD f show_error w. run_load.
  destruct (seekable f) eqn:Hseek; simpl.
  - destruct (read_csv utf_8 (content f)) as [df|[]] eqn:Hfirst; simpl;
      try (destruct (read_csv latin_1 (content f)) as [df2|e2]; simpl);
      destruct show_error; simpl; try destruct (st_ok w); simpl;
      try reflexivity; rewrite <- app_assoc; reflexivity.
  - destruct (read_csv utf_8 (skipn (file_pos w) (content f)))
      as [df|[]] eqn:Hfirst; simpl;
      destruct show_error; simpl; try destruct (st_ok w); simpl;
      reflexivity.
Qed.

(** C6, as stated, fails in its last part: a failure comes back as
    [None], which carries no kind.  No handle, an empty stream and a stream
    that is not UTF-8 behind a handle that cannot be rewound are three
    different failures, and [load_csv] returns the same value for the
    three; when errors are not shown, nothing is displayed for any. *)
Lemma failures_return_the_same :
  @load_outcome PandasModel.pandas None session = Failure NoFile
  /\ @load_outcome PandasModel.pandas (Some zero_bytes) session
     = Failure EmptyData
  /\ @load_outcome PandasModel.pandas (Some latin1_pipe) session
     = Failure EncodingError
  /\ fst (@load_csv PandasModel.pandas None true session) = Ret None
  /\ fst (@load_csv PandasModel.pandas (Some zero_bytes) true session)
     = Ret None
  /\ fst (@load_csv PandasModel.pandas (Some latin1_pipe) true session)
     = Ret None
  /\ st_log (snd (@load_csv PandasModel.pandas None false session)) = []
  /\ st_log (snd (@load_csv PandasModel.pandas (Some zero_bytes) false session))
     = []
  /\ st_log (snd (@load_csv PandasModel.pandas (Some latin1_pipe) false
                    session))
     = [].
Proof. repeat split; reflexivity. Qed.

(** C6, amended.  Whatever the handle, the flag, the state of the session
    and the behaviour of pandas, [load_csv] returns: no exception leaves
    it.  It returns the table, or [None] for every failure; the kind of the
    failure, as classified by [load_outcome] (with the exception's text for
    the unclassified ones), is what the one message displayed says, and it
    is displayed only when errors are shown and Streamlit works. *)
Theorem load_csv_never_raises :
  forall (PD : Pandas) (file : option File) (show_error : bool) (w : World),
    (forall e : exn, fst (load_csv file show_error w) <> Raise e)
    /\ exists w',
         load_csv file show_error w
           = (Ret (returned (load_outcome file w)), w')
         /\ st_log w' = st_log w ++ shown show_error w (load_outcome file w)
         /\ (returned (load_outcome file w) = None
             \/ exists df, load_outcome file w = Success df).
Proof.
  intros PD file show_error w.
  destruct (load_csv_run PD file show_error w) as [w' [Hrun Hlog]].
  split.
  - intros e. rewrite Hrun. discriminate.
  - exists w'. split; [exact Hrun|]. split; [exact Hlog|].
    destruct (load_outcome file w) as [df|k]; [right; eauto|left; reflexivity].
Qed.

(** C7, as stated, fails: behind a handle that cannot be rewound the first
    parse raises the decode error and no second call is made. *)
Lemma no_retry_without_seek :
  @read_csv PandasModel.pandas utf_8
     (skipn (first_offset latin1_pipe session) (content latin1_pipe))
    = Raise UnicodeDecodeError
  /\ ~ retried_once_latin1 session
         (snd (@load_csv PandasModel.pandas (Some latin1_pipe) true session)).
Proof.
  split; [reflexivity|].
  intros [off H]. vm_compute in H. discriminate H.
Qed.

(** C7, amended.  When the first parse raises a decode error: if the stream
    can be rewound, exactly one more call is made, with latin-1 and from the
    start of the stream, and its table is returned if it succeeds; if the
    rewind or the second parse raises, [load_csv] returns [None] with the
    encoding message, and raises nothing.  No call follows the second. *)
Theorem decode_error_retry :
  forall (PD : Pandas) (f : File) (show_error : bool) (w : World),
    read_csv utf_8 (skipn (first_offset f w) (content f)) = Raise UnicodeDecodeError ->
    exists w',
      load_csv (Some f) show_error w =
        (Ret (if seekable f
              then match read_csv latin_1 (content f) with
                   | Ret df => Some df
                   | Raise _ => None
                   end
              else None), w')
      /\ reads w' = reads w ++ (utf_8, first_offset f w)
                            :: (if seekable f then [(latin_1, 0%nat)] else [])
      /\ st_log w' = st_log w ++
           (if seekable f
            then match read_csv latin_1 (content f) with
                 | Ret _ => []
                 | Raise _ => shown show_error w (Failure EncodingError)
                 end
            else shown show_error w (Failure EncodingError)).
Proof.
  intros PD f show_error w Hfirst.
  destruct (load_csv_run PD (Some f) show_error w) as [w' [Hrun Hlog]].
  pose proof (load_csv_reads PD f show_error w) as Hreads.
  rewrite Hrun in Hreads. simpl in Hreads. rewrite Hfirst in Hreads.
  exists w'. unfold load_outcome in Hrun, Hlog.
  rewrite Hfirst in Hrun, Hlog.
  destruct (seekable f).
  - destruct (read_csv latin_1 (content f)); simpl in *; auto.
  - simpl in *; auto.
Qed.

Lemma decode_error_retry_witness :
  @read_csv PandasModel.pandas utf_8
     (skipn (first_offset latin1_upload session) (content latin1_upload))
    = Raise UnicodeDecodeError
  /\ exists w',
      @load_csv PandasModel.pandas (Some latin1_upload) true session =
        (Ret (Some (mkDataFrame [mkColumn "nom" object_ [VStr "café"]] 1%nat)), w')
      /\ reads w' = [(utf_8, 0%nat); (latin_1, 0%nat)]
      /\ st_log w' = [].
Proof.
  split; [reflexivity|].
  exact (decode_error_retry PandasModel.pandas latin1_upload true session eq_refl).
Defined.

Lemma with_index_length :
  forall (A : Type) (l : list A) (start : nat),
    List.length (with_index start l) = List.length l.
Proof.
  induction l as [|x l IH]; intros start; simpl; [reflexivity|].
  now rewrite IH.
Qed.

Lemma split_on_not_nil :
  forall (sep : ascii) (s : string), PandasModel.split_on sep s <> [].
Proof.
  intros sep s. destruct s as [|c rest]; simpl; [discriminate|].
  destruct (Ascii.eqb c sep); [discriminate|].
  destruct (PandasModel.split_on sep rest); discriminate.
Qed.

(** What the model's [read_csv] returns was built from a tokenized text. *)
Lemma model_read_csv_inv :
  forall (enc : Encoding) (data : list byte) (df : DataFrame),
    PandasModel.model_read_csv enc data = Ret df ->
    exists text t,
      PandasModel.decode enc data = Ret text
      /\ PandasModel.tokenize text = Ret t
      /\ df = PandasModel.build t.
Proof.
  intros enc data df H. unfold PandasModel.model_read_csv in H.
  destruct (PandasModel.decode enc data) as [text|e] eqn:Hdec; [|discriminate].
  destruct (PandasModel.tokenize text) as [t|e] eqn:Htok; [|discriminate].
  exists text, t. inversion H; subst. repeat split; assumption.
Qed.

Lemma tokenize_header_not_nil :
  forall (text : string) (t : PandasModel.RawTable),
    PandasModel.tokenize text = Ret t -> PandasModel.raw_header t <> [].
Proof.
  intros text t H. unfold PandasModel.tokenize in H.
  destruct (PandasModel.lines text) as [|h rest]; [discriminate|].
  destruct (forallb _ _); [|discriminate].
  inversion H; subst; simpl. apply split_on_not_nil.
Qed.

(** C4, as stated, fails: a file holding a header line and no data parses
    to a table of two columns and zero rows, and [load_csv] returns it. *)
Lemma header_only_is_loaded :
  exists (df : DataFrame) (w' : World),
    @load_csv PandasModel.pandas (Some header_only) true session
      = (Ret (Some df), w')
    /\ shape df = (0%nat, 2%nat).
Proof.
  eexists. eexists. split; vm_compute; reflexivity.
Qed.

(** C4, amended.  Without a handle [load_csv] returns [None] and shows
    the no-file message.  When pandas finds no column to parse (it raises
    [EmptyDataError]), [load_csv] returns [None] and shows the empty-file
    message; the model of pandas raises it on the zero-byte stream, and
    every table it returns has at least one column.  A table that pandas
    returns is returned as it is, whatever its number of rows. *)
Theorem no_columns_is_failure :
  (forall (PD : Pandas) (show_error : bool) (w : World),
      exists w',
        load_csv None show_error w = (Ret None, w')
        /\ st_log w' = st_log w ++ shown show_error w (Failure NoFile))
  /\ (forall (PD : Pandas) (f : File) (show_error : bool) (w : World),
         read_csv utf_8 (skipn (first_offset f w) (content f))
           = Raise EmptyDataError ->
         exists w',
           load_csv (Some f) show_error w = (Ret None, w')
           /\ st_log w' = st_log w ++ shown show_error w (Failure EmptyData))
  /\ (forall (enc : Encoding),
         PandasModel.model_read_csv enc [] = Raise EmptyDataError)
  /\ (forall (enc : Encoding) (data : list byte) (df : DataFrame),
         PandasModel.model_read_csv enc data = Ret df ->
         (1 <= snd (shape df))%nat)
  /\ (forall (PD : Pandas) (f : File) (show_error : bool) (w : World)
             (df : DataFrame),
         read_csv utf_8 (skipn (first_offset f w) (content f)) = Ret df ->
         exists w',
           load_csv (Some f) show_error w = (Ret (Some df), w')
           /\ st_log w' = st_log w).
Proof.
  repeat split.
  - intros PD show_error w. exact (load_csv_run PD None show_error w).
  - intros PD f show_error w H.
    destruct (load_csv_run PD (Some f) show_error w) as [w' [Hrun Hlog]].
    unfold load_outcome in Hrun, Hlog. rewrite H in Hrun, Hlog.
    exists w'. auto.
  - intros []; reflexivity.
  - intros enc data df H.
    destruct (model_read_csv_inv enc data df H) as [text [t [_ [Htok ->]]]].
    apply tokenize_header_not_nil in Htok.
    unfold shape, PandasModel.build; simpl.
    rewrite length_map, with_index_length.
    destruct (PandasModel.raw_header t); [congruence|simpl; lia].
  - intros PD f show_error w df H.
    destruct (load_csv_run PD (Some f) show_error w) as [w' [Hrun Hlog]].
    unfold load_outcome in Hrun, Hlog. rewrite H in Hrun, Hlog.
    exists w'. simpl in *. rewrite app_nil_r in Hlog. auto.
Qed.

Lemma no_columns_is_failure_witness :
  @read_csv PandasModel.pandas utf_8
     (skipn (first_offset zero_bytes session) (content zero_bytes))
    = Raise EmptyDataError
  /\ exists w',
       @load_csv PandasModel.pandas (Some zero_bytes) true session
         = (Ret None, w')
       /\ st_log w' = [StError msg_empty].
Proof.
  split; [reflexivity|].
  exact (proj1 (proj2 no_columns_is_failure)
               PandasModel.pandas zero_bytes true session eq_refl).
Defined.

(** ** list_numeric_columns *)

(** C10.  [list_numeric_columns] raises on no table and under no behaviour
    of pandas; without a table ([None]) it returns the empty list, which is
    also what it returns for a table without columns. *)
Theorem list_numeric_columns_total :
  (forall (PD : Pandas), list_numeric_columns None = Ret [])
  /\ (forall (PD : Pandas) (df : option DataFrame),
         exists cols, list_numeric_columns df = Ret cols)
  /\ (forall (n : nat),
         @list_numeric_columns PandasModel.pandas (Some (mkDataFrame [] n))
           = Ret [])
  /\ (forall (PD : Pandas) (n : nat),
         list_numeric_columns (Some (mkDataFrame [] n)) = Ret []
         \/ exists cols,
              select_dtypes_number (mkDataFrame [] n) = Ret cols
              /\ list_numeric_columns (Some (mkDataFrame [] n)) = Ret cols).
Proof.
  repeat split.
  - intros PD [d|]; simpl; [|eexists; reflexivity].
    destruct (select_dtypes_number d); [eexists; reflexivity|].
    destruct (numeric_by_dtype (df_columns d)); eexists; reflexivity.
  - intros PD n. simpl.
    destruct (select_dtypes_number (mkDataFrame [] n)) as [cols|e].
    + right. exists cols. auto.
    + left. reflexivity.
Qed.








(** ** Plain tables are read as they are written *)






Lemma skip_digits_length :
  forall s : string, (String.length (skip_digits s) <= String.length s)%nat.
Proof.
  induction s as [|c s IH]; simpl; [lia|].
  destruct (is_digit c); simpl; lia.
Qed.








(** *** Cutting the text back into lines and fields *)
















(** *** Decoding *)





(** *** Which fields are numbers *)








Lemma letter_facts :
  forall c : ascii,
    is_letter c = true ->
    is_digit c = false
    /\ Nat.eqb (nat_of_ascii c) 45 = false
    /\ Nat.eqb (nat_of_ascii c) 43 = false
    /\ Nat.eqb (nat_of_ascii c) 46 = false.
Proof.
  intros c H.
  destruct c as [[] [] [] [] [] [] [] []]; try discriminate H;
    repeat split; reflexivity.
Qed.


Lemma word_not_decimal :
  forall s : string, plain_word s = true -> decimal_literal s = false.
Proof.
  intros [|c s] H; [reflexivity|].
  unfold plain_word in H.
  apply andb_true_iff in H. destruct H as [H _].
  apply andb_true_iff in H. destruct H as [Hc _].
  destruct (letter_facts c Hc) as [Hd [H45 _]].
  unfold decimal_literal. rewrite H45. unfold unsigned_literal.
  cbn [skip_digits]. rewrite Hd, Nat.sub_diag. reflexivity.
Qed.










(** ** The summary *)










(** ** The numeric series and the charts *)

Lemma with_index_repeat :
  forall (n start : nat),
    map (fun iv : nat * Value => (fst iv, @None Q))
        (with_index start (repeat VNaN n))
    = with_index start (repeat None n).
Proof.
  induction n as [|n IH]; intros start; simpl; [reflexivity|].
  now rewrite IH.
Qed.

(** C8.  The series that [pd.to_numeric(..., errors='coerce')] returns
    has the length and the index of the column it was given; its entry at
    each position is the conversion of the entry at that position, NaN when
    the entry is missing or a text that is not a number; a column of
    missing entries gives as many NaN.  The conversion is a total function:
    it raises for no entry. *)
Theorem to_numeric_keeps_positions :
  forall (PD : Pandas) (s : Series Value),
    List.length (to_numeric_coerce s) = List.length s
    /\ map fst (to_numeric_coerce s) = map fst s
    /\ (forall i : nat,
           nth_error (to_numeric_coerce s) i
           = option_map (fun iv => (fst iv, to_num (snd iv))) (nth_error s i))
    /\ to_num VNaN = None
    /\ (forall txt : string, to_num (VStr txt) = str_to_float txt)
    /\ (forall n : nat,
           to_numeric_coerce (with_index 0 (repeat VNaN n))
           = with_index 0 (repeat None n))
    /\ (forall (df : DataFrame) (name : string),
           match getitem df name with
           | Ret column =>
               exists c, find_column name (df_columns df) = Some c
                         /\ List.length (to_numeric_coerce column)
                            = List.length (col_values c)
           | Raise _ => find_column name (df_columns df) = None
           end).
Proof.
  intros PD s. unfold to_numeric_coerce.
  split; [apply length_map|].
  split; [rewrite map_map; reflexivity|].
  split; [intros i; apply nth_error_map|].
  split; [reflexivity|].
  split; [reflexivity|].
  split.
  - intros n. rewrite <- with_index_repeat. apply map_ext_in.
    intros [i v] Hin. simpl.
    assert (Hv : In v (repeat VNaN n)).
    { clear -Hin. revert Hin. generalize 0%nat.
      induction (repeat VNaN n) as [|y l IH]; simpl; intros start H;
        [contradiction|].
      destruct H as [H|H]; [inversion H; auto|right; eauto]. }
    apply repeat_spec in Hv. subst. reflexivity.
  - intros df name. unfold getitem.
    destruct (find_column name (df_columns df)) as [c|]; [|reflexivity].
    exists c. split; [reflexivity|].
    rewrite length_map. apply with_index_length.
Qed.

Lemma dropna_is_filter :
  forall (s : NumSeries),
    map (fun iv => (fst iv, Some (snd iv))) (dropna s)
    = filter (fun iv => match snd iv with Some _ => true | None => false end) s.
Proof.
  induction s as [|[i [x|]] s IH]; simpl; [reflexivity| |exact IH].
  now rewrite IH.
Qed.

Lemma series_head_firstn :
  forall (A : Type) (n : nat) (s : Series A),
    series_head (Z.of_nat n) s = firstn n s.
Proof.
  intros A n s. unfold series_head, head_count.
  destruct (0 <=? Z.of_nat n)%Z eqn:H; [|apply Z.leb_gt in H; lia].
  clear H. rewrite Nat2Z.id. revert n.
  induction s as [|x s IH]; intros [|n]; simpl; try reflexivity.
  f_equal. apply IH.
Qed.

(** C9.  The bar chart is drawn from the first 100 present values of the
    series: the present values are the entries that are not NaN, in the
    order of the series; what is drawn is their prefix of length
    min(100, their number); the rest is left out. *)
Theorem bar_chart_first_100 :
  forall (selected_col : string) (col_series : NumSeries) (bins : Z),
    render_chart Bar selected_col col_series bins
      = st_emit (StBarChart (firstn 100 (dropna col_series)))
    /\ List.length (firstn 100 (dropna col_series))
       = Nat.min 100 (List.length (dropna col_series))
    /\ dropna col_series
       = firstn 100 (dropna col_series) ++ skipn 100 (dropna col_series)
    /\ map (fun iv => (fst iv, Some (snd iv))) (dropna col_series)
       = filter (fun iv => match snd iv with Some _ => true | None => false end)
                col_series.
Proof.
  intros selected_col col_series bins.
  split.
  - unfold render_chart. change 100%Z with (Z.of_nat 100).
    rewrite (series_head_firstn Q 100 (dropna col_series)). reflexivity.
  - split; [apply length_firstn|].
    split; [symmetry; apply firstn_skipn|apply dropna_is_filter].
Qed.

(** ** The histogram and its fallback *)



















(** ** The download *)

(** C5, at a table of six rows shown five rows at a time: the table
    displayed has five rows; the data behind the button labelled as the
    displayed data is the whole table, which loads back with six. *)
Theorem download_is_the_whole_table :
  forall (PF : PyFormat),
    let log := st_log (snd (@main PandasModel.pandas PF head_five session)) in
    exists (displayed reloaded : DataFrame) (data : string),
      displayed_tables log = [displayed]
      /\ downloads log = [data]
      /\ In (StWrite "Vous pouvez télécharger les données affichées (CSV) :") log
      /\ shape displayed = (5%nat, 1%nat)
      /\ PandasModel.model_read_csv utf_8 (bytes data) = Ret reloaded
      /\ shape reloaded = (6%nat, 1%nat).
Proof.
  intros PF log.
  eexists. eexists. eexists.
  split; [vm_compute; reflexivity|].
  split; [vm_compute; reflexivity|].
  split; [vm_compute; tauto|].
  split; [reflexivity|].
  split; vm_compute; reflexivity.
Qed.


(** * Further properties of the script *)

(** ** load_csv *)

Lemma load_outcome_pos :
  forall (PD : Pandas) (file : option File) (w w' : World),
    file_pos w = file_pos w' ->
    load_outcome file w = load_outcome file w'.
Proof.
  intros PD [f|] w w' Hpos; [|reflexivity].
  unfold load_outcome, first_offset. rewrite Hpos. reflexivity.
Qed.

(** X1.  What [load_csv] returns does not depend on [show_error], on
    whether Streamlit works, or on what was displayed before: two runs on
    the same handle standing at the same position return the same value. *)
Theorem load_csv_value_ignores_display :
  forall (PD : Pandas) (file : option File) (show_error show_error' : bool)
         (w w' : World),
    file_pos w = file_pos w' ->
    fst (load_csv file show_error w) = fst (load_csv file show_error' w').
Proof.
  intros PD file se se' w w' Hpos.
  destruct (load_csv_run PD file se w) as [w1 [H1 _]].
  destruct (load_csv_run PD file se' w') as [w2 [H2 _]].
  rewrite H1, H2. simpl. rewrite (load_outcome_pos PD file w w' Hpos).
  reflexivity.
Qed.

Lemma load_csv_value_ignores_display_witness :
  file_pos session = file_pos without_streamlit
  /\ fst (@load_csv PandasModel.pandas (Some ragged) true session)
     = fst (@load_csv PandasModel.pandas (Some ragged) false without_streamlit).
Proof.
  split; [reflexivity|].
  exact (load_csv_value_ignores_display PandasModel.pandas (Some ragged)
           true false session without_streamlit eq_refl).
Defined.

(** X2.  With [show_error=False], [load_csv] displays nothing, whatever
    happens. *)
Theorem load_csv_silent :
  forall (PD : Pandas) (file : option File) (w : World),
    st_log (snd (load_csv file false w)) = st_log w.
Proof.
  intros PD file w.
  destruct (load_csv_run PD file false w) as [w' [Hrun Hlog]].
  rewrite Hrun. simpl. rewrite Hlog.
  destruct (load_outcome file w); simpl; apply app_nil_r.
Qed.

(** X3.  A handle that can be rewound is parsed from its start, wherever
    it stood: the first call to [pd.read_csv] is made at offset 0 and the
    value returned is the same for every position of the handle. *)
Theorem load_csv_rewinds :
  forall (PD : Pandas) (f : File) (show_error : bool) (w w' : World),
    seekable f = true ->
    fst (load_csv (Some f) show_error w) = fst (load_csv (Some f) show_error w')
    /\ exists more,
         reads (snd (load_csv (Some f) show_error w))
         = reads w ++ (utf_8, 0%nat) :: more.
Proof.
  intros PD f se w w' Hseek. split.
  - destruct (load_csv_run PD (Some f) se w) as [w1 [H1 _]].
    destruct (load_csv_run PD (Some f) se w') as [w2 [H2 _]].
    rewrite H1, H2. simpl. unfold first_offset. rewrite Hseek. reflexivity.
  - rewrite load_csv_reads. unfold first_offset. rewrite Hseek.
    eexists. reflexivity.
Qed.

Lemma load_csv_rewinds_witness :
  seekable latin1_upload = true
  /\ fst (@load_csv PandasModel.pandas (Some latin1_upload) true session)
     = fst (@load_csv PandasModel.pandas (Some latin1_upload) true
              (mkWorld true true true [] 7%nat []))
  /\ exists more,
       reads (snd (@load_csv PandasModel.pandas (Some latin1_upload) true
                     session))
       = reads session ++ (utf_8, 0%nat) :: more.
Proof.
  split; [reflexivity|].
  exact (load_csv_rewinds PandasModel.pandas latin1_upload true session
           (mkWorld true true true [] 7%nat []) eq_refl).
Defined.

(** X4.  [load_csv] calls [pd.read_csv] at most twice: not at all without
    a handle; otherwise once with the default encoding, and a second time,
    with latin-1 and from the start of the stream, only after the first
    call raised a decode error on a handle that can be rewound. *)
Theorem load_csv_parse_calls :
  forall (PD : Pandas) (file : option File) (show_error : bool) (w : World),
    exists calls,
      reads (snd (load_csv file show_error w)) = reads w ++ calls
      /\ (List.length calls <= 2)%nat
      /\ match file with
         | None => calls = []
         | Some f =>
             match read_csv utf_8 (skipn (first_offset f w) (content f)) with
             | Raise UnicodeDecodeError =>
                 calls = (utf_8, first_offset f w)
                           :: (if seekable f then [(latin_1, 0%nat)] else [])
             | _ => calls = [(utf_8, first_offset f w)]
             end
         end.
Proof.
  intros PD [f|] se w.
  - rewrite load_csv_reads. eexists. split; [reflexivity|].
    destruct (read_csv utf_8 (skipn (first_offset f w) (content f)))
      as [df|[]]; simpl; try (split; [lia|reflexivity]).
    destruct (seekable f); simpl; split; try lia; reflexivity.
  - exists []. split; [|split; [simpl; lia|reflexivity]].
    rewrite app_nil_r. run_load.
    destruct se; simpl; [destruct (st_ok w)|]; reflexivity.
Qed.

(** ** list_numeric_columns *)

Lemma numeric_by_dtype_filter :
  forall (PD : Pandas) (keep : Column -> bool) (cols : list Column),
    (forall c, In c cols -> is_numeric_dtype c = Ret (keep c)) ->
    numeric_by_dtype cols = Ret (map col_name (filter keep cols)).
Proof.
  intros PD keep cols. induction cols as [|c cols IH]; intros H; simpl;
    [reflexivity|].
  rewrite (H c (or_introl eq_refl)).
  rewrite IH by (intros c' Hc'; apply H; right; exact Hc').
  destruct (keep c); reflexivity.
Qed.

(** X5.  When [select_dtypes] raises, [list_numeric_columns] takes the
    column-by-column path: it returns the names of the columns for which
    [is_numeric_dtype] holds, in the order of the table. *)
Theorem list_numeric_columns_fallback :
  forall (PD : Pandas) (df : DataFrame) (e : exn) (keep : Column -> bool),
    select_dtypes_number df = Raise e ->
    (forall c, In c (df_columns df) -> is_numeric_dtype c = Ret (keep c)) ->
    list_numeric_columns (Some df)
    = Ret (map col_name (filter keep (df_columns df))).
Proof.
  intros PD df e keep Hsel Hdtype. simpl. rewrite Hsel.
  rewrite (numeric_by_dtype_filter PD keep _ Hdtype). reflexivity.
Qed.

Lemma list_numeric_columns_fallback_witness :
  @select_dtypes_number pandas_without_select_dtypes mixed_table
    = Raise (PyException "select_dtypes")
  /\ (forall c, In c (df_columns mixed_table) ->
        @is_numeric_dtype pandas_without_select_dtypes c
        = Ret (match col_dtype c with object_ => false | _ => true end))
  /\ @list_numeric_columns pandas_without_select_dtypes (Some mixed_table)
     = Ret ["a"; "c"].
Proof.
  split; [reflexivity|]. split; [intros c _; reflexivity|].
  exact (list_numeric_columns_fallback pandas_without_select_dtypes mixed_table
           (PyException "select_dtypes")
           (fun c => match col_dtype c with object_ => false | _ => true end)
           eq_refl (fun c _ => eq_refl)).
Defined.

Lemma find_column_in :
  forall (name : string) (cols : list Column),
    In name (map col_name cols) ->
    exists c, find_column name cols = Some c /\ col_name c = name.
Proof.
  intros name cols. induction cols as [|c cols IH]; simpl; [contradiction|].
  intros H. destruct (String.eqb_spec (col_name c) name) as [Heq|Hne].
  - exists c. auto.
  - destruct H as [H|H]; [congruence|]. apply IH, H.
Qed.

Lemma numeric_columns_in :
  forall (df : DataFrame) (name : string),
    In name (PandasModel.numeric_columns df) ->
    In name (map col_name (df_columns df)).
Proof.
  intros df name H. unfold PandasModel.numeric_columns in H.
  apply in_map_iff in H. destruct H as [c [Hname Hc]].
  apply filter_In in Hc. apply in_map_iff. exists c. tauto.
Qed.

(** ** Whole runs of main *)

Lemma displays_ret :
  forall (A : Type) (a : A) (w : World), displays (ret a) w a [].
Proof.
  intros A a w. exists w. unfold same_flags. rewrite app_nil_r.
  repeat split; reflexivity.
Qed.

Lemma displays_emit :
  forall (e : Event) (w : World),
    st_ok w = true -> displays (st_emit e) w tt [e].
Proof.
  intros e w Hst. unfold displays, st_emit, same_flags. rewrite Hst.
  eexists. repeat split; reflexivity.
Qed.

Lemma displays_bind :
  forall (A B : Type) (c : M A) (k : A -> M B) (w : World) (a : A) (b : B)
         (es1 es2 es : list Event),
    displays c w a es1 ->
    (forall w', same_flags w w' -> displays (k a) w' b es2) ->
    es = es1 ++ es2 ->
    displays (bind c k) w b es.
Proof.
  intros A B c k w a b es1 es2 es [w1 [Hc [Hf1 Hl1]]] Hk ->.
  destruct (Hk w1 Hf1) as [w2 [Hk2 [Hf2 Hl2]]].
  exists w2. unfold bind. rewrite Hc. split; [exact Hk2|].
  unfold same_flags in *. split; [intuition congruence|].
  rewrite Hl2, Hl1, app_assoc. reflexivity.
Qed.

Lemma displays_when :
  forall (b : bool) (c : M unit) (w : World) (es : list Event),
    displays c w tt es ->
    displays (when b c) w tt (if b then es else []).
Proof.
  intros [] c w es H; simpl; [exact H|apply displays_ret].
Qed.

Lemma same_flags_st_ok :
  forall (w w' : World),
    same_flags w w' -> st_ok w = true -> st_ok w' = true.
Proof. unfold same_flags. intros w w' [H _] Hst. congruence. Qed.

Lemma load_csv_displays :
  forall (PD : Pandas) (file : option File) (show_error : bool) (w : World),
    displays (load_csv file show_error) w (returned (load_outcome file w))
             (shown show_error w (load_outcome file w)).
Proof.
  intros PD file show_error w. unfold displays, same_flags.
  destruct file as [f|]; run_load.
  - destruct (seekable f) eqn:Hseek; simpl.
    + destruct (read_csv utf_8 (content f)) as [df|[]] eqn:Hfirst; simpl;
        try (destruct (read_csv latin_1 (content f)) as [df2|e2]; simpl);
        destruct show_error; simpl; try destruct (st_ok w) eqn:Hst; simpl;
        eexists; (split; [reflexivity|]); simpl;
        rewrite ?app_nil_r; repeat split; auto.
    + destruct (read_csv utf_8 (skipn (file_pos w) (content f)))
        as [df|[]] eqn:Hfirst; simpl;
        destruct show_error; simpl; try destruct (st_ok w) eqn:Hst; simpl;
        eexists; (split; [reflexivity|]); simpl;
        rewrite ?app_nil_r; repeat split; auto.
  - destruct show_error; simpl; try destruct (st_ok w) eqn:Hst; simpl;
      eexists; (split; [reflexivity|]); simpl;
      rewrite ?app_nil_r; repeat split; auto.
Qed.

Lemma render_chart_displays :
  forall (chart : ChartType) (selected_col : string) (col_series : NumSeries)
         (hist_bins : Z) (w : World),
    st_ok w = true ->
    displays (render_chart chart selected_col col_series hist_bins) w tt
             [drawn chart selected_col col_series hist_bins w].
Proof.
  intros chart selected_col col_series hist_bins w Hst.
  destruct chart; simpl; try (apply displays_emit; exact Hst).
  unfold displays, same_flags, try_except, altair_histogram,
    pyplot_histogram, st_error, st_emit.
  destruct (altair_ok w) eqn:Halt; [rewrite Hst; eexists; repeat split; eauto|].
  destruct (pyplot_ok w) eqn:Hpy;
    [|rewrite Hst; eexists; repeat split; eauto].
  destruct (pyplot_bin_edges (values (dropna col_series)) hist_bins);
    rewrite Hst; eexists; repeat split; eauto.
Qed.

Lemma drawn_same_flags :
  forall (chart : ChartType) (selected_col : string) (col_series : NumSeries)
         (hist_bins : Z) (w w' : World),
    same_flags w w' ->
    drawn chart selected_col col_series hist_bins w'
    = drawn chart selected_col col_series hist_bins w.
Proof.
  intros chart selected_col col_series hist_bins w w' [_ [Ha [Hp [_ He]]]].
  unfold drawn. rewrite Ha, Hp, He. reflexivity.
Qed.

Ltac next_call :=
  eapply displays_bind;
  [ | let w' := fresh "w" in
      let Hf := fresh "Hflags" in
      let Hst' := fresh "Hst" in
      intros w' Hf;
      match goal with
      | Hst : st_ok _ = true |- _ =>
          pose proof (same_flags_st_ok _ _ Hf Hst) as Hst'
      end
    | ].

(** A run of the part of main that follows a successful load. *)
Lemma explore_displays :
  forall (PF : PyFormat) (wd : Widgets) (df : DataFrame) (w : World),
    st_ok w = true ->
    displays (@explore PandasModel.pandas PF wd df) w tt
             (explore_shown wd df w).
Proof.
  intros PF wd df w Hst. unfold explore, explore_shown.
  next_call; [apply displays_emit; exact Hst| |reflexivity].
  next_call; [apply displays_emit; assumption| |reflexivity].
  next_call; [apply displays_when, displays_emit; assumption| |reflexivity].
  next_call; [apply displays_when, displays_emit; assumption| |reflexivity].
  next_call; [apply displays_ret| |reflexivity].
  next_call; [apply displays_emit; assumption| |reflexivity].
  destruct (PandasModel.numeric_columns df) as [|first rest] eqn:Hnum.
  - next_call; [apply displays_emit; assumption| |reflexivity].
    apply displays_emit; assumption.
  - set (selected_col := nth (selected_col_choice wd) (first :: rest) first).
    assert (Hin : In selected_col (PandasModel.numeric_columns df)).
    { rewrite Hnum. unfold selected_col.
      destruct (Nat.lt_ge_cases (selected_col_choice wd)
                                (List.length (first :: rest))) as [Hlt|Hge].
      - apply nth_In. exact Hlt.
      - rewrite nth_overflow by exact Hge. left. reflexivity. }
    destruct (find_column_in selected_col (df_columns df)
                (numeric_columns_in df selected_col Hin)) as [c [Hfind _]].
    unfold getitem. rewrite Hfind.
    next_call; [apply displays_emit; assumption| |reflexivity].
    next_call; [apply displays_ret| |reflexivity].
    next_call; [apply displays_emit; assumption| |reflexivity].
    next_call; [apply displays_when, displays_emit; assumption| |reflexivity].
    next_call; [apply render_chart_displays; assumption| |].
    2:{ match goal with
        | |- _ = [drawn _ _ _ _ ?wk] ++ _ =>
            rewrite (drawn_same_flags _ _ _ _ w wk)
              by (unfold same_flags in *; intuition congruence)
        end.
        reflexivity. }
    next_call; [apply displays_emit; assumption| |reflexivity].
    next_call; [apply displays_emit; assumption| |reflexivity].
    apply displays_emit; assumption.
Qed.

Lemma displays_emit_bind :
  forall (B : Type) (e : Event) (k : M B) (w : World) (b : B)
         (es : list Event),
    st_ok w = true ->
    (forall w', same_flags w w' -> file_pos w' = file_pos w ->
                reads w' = reads w -> displays k w' b es) ->
    displays (bind (st_emit e) (fun _ => k)) w b (e :: es).
Proof.
  intros B e k w b es Hst Hk. unfold displays, bind, st_emit. rewrite Hst.
  match goal with
  | |- exists _, k ?w1 = _ /\ _ =>
      destruct (Hk w1) as [w2 [Hrun [Hf Hlog]]];
        [unfold same_flags; simpl; auto|reflexivity|reflexivity|]
  end.
  exists w2. split; [exact Hrun|].
  split; [unfold same_flags in *; simpl in *; intuition congruence|].
  rewrite Hlog. simpl. rewrite <- app_assoc. reflexivity.
Qed.

Lemma explore_shown_same_flags :
  forall (PF : PyFormat) (wd : Widgets) (df : DataFrame) (w w' : World),
    same_flags w w' -> explore_shown wd df w' = explore_shown wd df w.
Proof.
  intros PF wd df w w' Hf. unfold explore_shown.
  destruct (PandasModel.numeric_columns df); [reflexivity|].
  cbv zeta. rewrite (drawn_same_flags _ _ _ _ w w' Hf). reflexivity.
Qed.

(** A run of main on an upload that loads. *)
Lemma main_loaded :
  forall (PF : PyFormat) (wd : Widgets) (f : File) (df : DataFrame)
         (w : World),
    uploaded_file wd = Some f ->
    @load_outcome PandasModel.pandas (Some f) w = Success df ->
    st_ok w = true ->
    displays (@main PandasModel.pandas PF wd) w tt
             (page_header ++ explore_shown wd df w).
Proof.
  intros PF wd f df w Hup Hload Hst. unfold main, page_header. cbn [app].
  apply displays_emit_bind; [exact Hst|]. intros w1 Hf1 Hp1 _.
  pose proof (same_flags_st_ok _ _ Hf1 Hst) as Hst1.
  apply displays_emit_bind; [exact Hst1|]. intros w2 Hf2 Hp2 _.
  pose proof (same_flags_st_ok _ _ Hf2 Hst1) as Hst2.
  apply displays_emit_bind; [exact Hst2|]. intros w3 Hf3 Hp3 _.
  pose proof (same_flags_st_ok _ _ Hf3 Hst2) as Hst3.
  rewrite Hup.
  assert (Hout : @load_outcome PandasModel.pandas (Some f) w3 = Success df).
  { rewrite <- Hload. apply load_outcome_pos. congruence. }
  eapply displays_bind with (es2 := explore_shown wd df w).
  - apply load_csv_displays.
  - rewrite Hout. simpl. intros w4 Hf4.
    pose proof (same_flags_st_ok _ _ Hf4 Hst3) as Hst4.
    rewrite <- (explore_shown_same_flags PF wd df w w4).
    + apply explore_displays. exact Hst4.
    + unfold same_flags in *. intuition congruence.
  - rewrite Hout. reflexivity.
Qed.

Lemma drawn_cases :
  forall (chart : ChartType) (selected_col : string) (col_series : NumSeries)
         (hist_bins : Z) (w : World),
    is_chart (drawn chart selected_col col_series hist_bins w) = true
    \/ exists msg,
         drawn chart selected_col col_series hist_bins w = StError msg.
Proof.
  intros chart selected_col col_series hist_bins w. unfold drawn.
  destruct chart; simpl; auto.
  destruct (altair_ok w); simpl; auto.
  destruct (pyplot_ok w); [|right; eexists; reflexivity].
  destruct (pyplot_bin_edges _ _); simpl; auto.
  right. eexists. reflexivity.
Qed.

(** A run of main on an upload that does not load. *)
Lemma main_failed :
  forall (PD : Pandas) (PF : PyFormat) (wd : Widgets) (f : File)
         (k : ErrorKind) (w : World),
    uploaded_file wd = Some f ->
    load_outcome (Some f) w = Failure k ->
    st_ok w = true ->
    displays (main wd) w tt (page_header ++ [StError (message k)]).
Proof.
  intros PD PF wd f k w Hup Hload Hst. unfold main, page_header. cbn [app].
  apply displays_emit_bind; [exact Hst|]. intros w1 Hf1 Hp1 _.
  pose proof (same_flags_st_ok _ _ Hf1 Hst) as Hst1.
  apply displays_emit_bind; [exact Hst1|]. intros w2 Hf2 Hp2 _.
  pose proof (same_flags_st_ok _ _ Hf2 Hst1) as Hst2.
  apply displays_emit_bind; [exact Hst2|]. intros w3 Hf3 Hp3 _.
  pose proof (same_flags_st_ok _ _ Hf3 Hst2) as Hst3.
  rewrite Hup.
  assert (Hout : load_outcome (Some f) w3 = Failure k).
  { rewrite <- Hload. apply load_outcome_pos. congruence. }
  eapply displays_bind with (es2 := []).
  - apply load_csv_displays.
  - rewrite Hout. simpl. intros w4 _. apply displays_ret.
  - rewrite Hout. simpl. rewrite Hst3. reflexivity.
Qed.

(** A run of main without an upload. *)
Lemma main_no_upload :
  forall (PD : Pandas) (PF : PyFormat) (wd : Widgets) (w : World),
    uploaded_file wd = None ->
    st_ok w = true ->
    displays (main wd) w tt
      (page_header
       ++ StInfo "Uploadez un fichier CSV depuis la barre latérale ou ici pour commencer."
       :: (if sample_button wd
           then [ StWrite "CSV d'exemple"; StDataframe sample_df;
                  StDownloadButton "Télécharger l'exemple" (to_csv sample_df)
                                   "sample.csv" ]
           else []))
    /\ reads (snd (main wd w)) = reads w.
Proof.
  intros PD PF wd w Hup Hst. split.
  - unfold main, page_header. cbn [app].
    apply displays_emit_bind; [exact Hst|]. intros w1 Hf1 Hp1 _.
    pose proof (same_flags_st_ok _ _ Hf1 Hst) as Hst1.
    apply displays_emit_bind; [exact Hst1|]. intros w2 Hf2 Hp2 _.
    pose proof (same_flags_st_ok _ _ Hf2 Hst1) as Hst2.
    apply displays_emit_bind; [exact Hst2|]. intros w3 Hf3 Hp3 _.
    pose proof (same_flags_st_ok _ _ Hf3 Hst2) as Hst3.
    rewrite Hup.
    apply displays_emit_bind; [exact Hst3|]. intros w4 Hf4 Hp4 _.
    pose proof (same_flags_st_ok _ _ Hf4 Hst3) as Hst4.
    apply displays_when.
    apply displays_emit_bind; [exact Hst4|]. intros w5 Hf5 Hp5 _.
    pose proof (same_flags_st_ok _ _ Hf5 Hst4) as Hst5.
    apply displays_emit_bind; [exact Hst5|]. intros w6 Hf6 Hp6 _.
    pose proof (same_flags_st_ok _ _ Hf6 Hst5) as Hst6.
    apply displays_emit. exact Hst6.
  - unfold main, bind, when, st_emit, ret. rewrite Hup. simpl.
    rewrite Hst. simpl.
    destruct (sample_button wd); reflexivity.
Qed.

(** X7.  With the model of pandas and a Streamlit that works, main raises
    for no widget state, no upload and no state of the chart engines: every
    run returns normally. *)
Theorem main_never_raises :
  forall (PF : PyFormat) (wd : Widgets) (w : World),
    st_ok w = true ->
    fst (@main PandasModel.pandas PF wd w) = Ret tt.
Proof.
  intros PF wd w Hst.
  assert (H : exists es, displays (@main PandasModel.pandas PF wd) w tt es).
  { destruct (uploaded_file wd) as [f|] eqn:Hup.
    - destruct (@load_outcome PandasModel.pandas (Some f) w) as [df|k]
        eqn:Hload.
      + eexists. apply (main_loaded PF wd f df w Hup Hload Hst).
      + eexists. apply (main_failed _ PF wd f k w Hup Hload Hst).
    - eexists. apply (main_no_upload _ PF wd w Hup Hst). }
  destruct H as [es [w' [Hrun _]]]. rewrite Hrun. reflexivity.
Qed.

Lemma main_never_raises_witness :
  st_ok without_engines = true
  /\ forall PF : PyFormat,
       fst (@main PandasModel.pandas PF head_five without_engines) = Ret tt.
Proof.
  split; [reflexivity|].
  intros PF. exact (main_never_raises PF head_five without_engines eq_refl).
Defined.

Lemma flat_map_app_list :
  forall (A B : Type) (f : A -> list B) (l1 l2 : list A),
    flat_map f (l1 ++ l2) = flat_map f l1 ++ flat_map f l2.
Proof.
  intros A B f l1 l2. induction l1 as [|x l1 IH]; simpl; [reflexivity|].
  rewrite IH, app_assoc. reflexivity.
Qed.

Ltac split_drawn :=
  cbv zeta;
  match goal with
  | |- context [drawn ?c ?n ?s ?b ?w] =>
      let e := fresh "e" in
      let He := fresh "He" in
      destruct (drawn_cases c n s b w) as [He|[? He]];
      [ destruct (drawn c n s b w); try discriminate He
      | rewrite He ]
  end.

Ltac by_widgets wd :=
  destruct (show_head wd); destruct (describe_checkbox wd);
  destruct (agg_option wd); simpl.

(** What a run on a loaded table offers for download, displays as tables
    and draws. *)
Lemma explore_shown_downloads :
  forall (PF : PyFormat) (wd : Widgets) (df : DataFrame) (w : World),
    downloads (page_header ++ explore_shown wd df w)
    = match PandasModel.numeric_columns df with
      | [] => []
      | _ :: _ => [to_csv df]
      end.
Proof.
  intros PF wd df w. unfold explore_shown, page_header.
  destruct (PandasModel.numeric_columns df) as [|first rest].
  - by_widgets wd; reflexivity.
  - split_drawn; by_widgets wd; reflexivity.
Qed.

Lemma explore_shown_tables :
  forall (PF : PyFormat) (wd : Widgets) (df : DataFrame) (w : World),
    displayed_tables (page_header ++ explore_shown wd df w)
    = if show_head wd then [head (max_rows wd) df] else [].
Proof.
  intros PF wd df w. unfold explore_shown, page_header.
  destruct (PandasModel.numeric_columns df) as [|first rest].
  - by_widgets wd; reflexivity.
  - split_drawn; by_widgets wd; reflexivity.
Qed.

Lemma explore_shown_charts :
  forall (PF : PyFormat) (wd : Widgets) (df : DataFrame) (w : World),
    (List.length (charts (page_header ++ explore_shown wd df w))
     + List.length (errors (page_header ++ explore_shown wd df w)))%nat
    = match PandasModel.numeric_columns df with
      | [] => 0%nat
      | _ :: _ => 1%nat
      end.
Proof.
  intros PF wd df w. unfold explore_shown, page_header.
  destruct (PandasModel.numeric_columns df) as [|first rest].
  - by_widgets wd; reflexivity.
  - split_drawn; by_widgets wd; reflexivity.
Qed.

Lemma explore_shown_described :
  forall (PF : PyFormat) (wd : Widgets) (df : DataFrame) (w : World),
    described (page_header ++ explore_shown wd df w)
    = if describe_checkbox wd then [df] else [].
Proof.
  intros PF wd df w. unfold explore_shown, page_header.
  destruct (PandasModel.numeric_columns df) as [|first rest].
  - by_widgets wd; reflexivity.
  - split_drawn; by_widgets wd; reflexivity.
Qed.

(** ** The summary line *)





(** ** The branches of main *)

(** X8.  When the upload does not load, main shows the page header and
    the loader's one error message and stops: no table, no chart and no
    download button follow. *)
Theorem main_stops_on_failed_load :
  forall (PD : Pandas) (PF : PyFormat) (wd : Widgets) (f : File)
         (k : ErrorKind) (w : World),
    uploaded_file wd = Some f ->
    load_outcome (Some f) w = Failure k ->
    st_ok w = true ->
    exists w',
      main wd w = (Ret tt, w')
      /\ st_log w' = st_log w ++ page_header ++ [StError (message k)]
      /\ displayed_tables (page_header ++ [StError (message k)]) = []
      /\ charts (page_header ++ [StError (message k)]) = []
      /\ downloads (page_header ++ [StError (message k)]) = [].
Proof.
  intros PD PF wd f k w Hup Hload Hst.
  destruct (main_failed PD PF wd f k w Hup Hload Hst) as [w' [Hrun [_ Hlog]]].
  exists w'. repeat split; auto.
Qed.

Lemma main_stops_on_failed_load_witness :
  uploaded_file on_empty = Some zero_bytes
  /\ @load_outcome PandasModel.pandas (Some zero_bytes) session
     = Failure EmptyData
  /\ st_ok session = true
  /\ forall PF : PyFormat,
     exists w',
       @main PandasModel.pandas PF on_empty session = (Ret tt, w')
       /\ st_log w' = page_header ++ [StError msg_empty].
Proof.
  split; [reflexivity|]. split; [reflexivity|]. split; [reflexivity|].
  intros PF.
  destruct (main_stops_on_failed_load PandasModel.pandas PF on_empty zero_bytes
              EmptyData session eq_refl eq_refl eq_refl)
    as [w' [Hrun [Hlog _]]].
  exists w'. split; [exact Hrun|exact Hlog].
Defined.

(** X9.  Without an upload main calls [pd.read_csv] not at all and draws
    nothing: after the page header it shows the invitation to upload and,
    when the sample button was pressed, the sample table with its CSV for
    download, and nothing else. *)
Theorem main_without_upload :
  forall (PD : Pandas) (PF : PyFormat) (wd : Widgets) (w : World),
    uploaded_file wd = None ->
    st_ok w = true ->
    exists w',
      main wd w = (Ret tt, w')
      /\ reads w' = reads w
      /\ st_log w'
         = st_log w
           ++ page_header
           ++ StInfo "Uploadez un fichier CSV depuis la barre latérale ou ici pour commencer."
           :: (if sample_button wd
               then [ StWrite "CSV d'exemple"; StDataframe sample_df;
                      StDownloadButton "Télécharger l'exemple"
                                       (to_csv sample_df) "sample.csv" ]
               else []).
Proof.
  intros PD PF wd w Hup Hst.
  destruct (main_no_upload PD PF wd w Hup Hst) as [[w' [Hrun [_ Hlog]]] Hreads].
  exists w'. split; [exact Hrun|]. rewrite Hrun in Hreads.
  split; [exact Hreads|exact Hlog].
Qed.

Lemma main_without_upload_witness :
  uploaded_file no_upload = None
  /\ st_ok session = true
  /\ forall PF : PyFormat,
     exists w',
       @main PandasModel.pandas PF no_upload session = (Ret tt, w')
       /\ reads w' = []
       /\ displayed_tables (st_log w') = [sample_df].
Proof.
  split; [reflexivity|]. split; [reflexivity|].
  intros PF.
  destruct (main_without_upload PandasModel.pandas PF no_upload session
              eq_refl eq_refl) as [w' [Hrun [Hreads Hlog]]].
  exists w'. split; [exact Hrun|]. split; [exact Hreads|].
  rewrite Hlog. reflexivity.
Defined.

(** X10.  When the loaded table has no numeric column, main shows the
    overview and the warning and stops there: it draws no chart and offers
    no download button. *)
Theorem main_without_numeric_column :
  forall (PF : PyFormat) (wd : Widgets) (f : File) (df : DataFrame)
         (w : World),
    uploaded_file wd = Some f ->
    @load_outcome PandasModel.pandas (Some f) w = Success df ->
    @list_numeric_columns PandasModel.pandas (Some df) = Ret [] ->
    st_ok w = true ->
    exists es,
      displays (@main PandasModel.pandas PF wd) w tt es
      /\ In (StWarning "Aucune colonne numérique trouvée — impossible de tracer un graphique. Vérifiez votre fichier.") es
      /\ charts es = []
      /\ errors es = []
      /\ downloads es = [].
Proof.
  intros PF wd f df w Hup Hload Hnum Hst.
  simpl in Hnum.
  assert (Hcols : PandasModel.numeric_columns df = []) by congruence.
  clear Hnum.
  exists (page_header ++ explore_shown wd df w).
  split; [apply (main_loaded PF wd f df w Hup Hload Hst)|].
  pose proof (explore_shown_charts PF wd df w) as Hcharts.
  pose proof (explore_shown_downloads PF wd df w) as Hdown.
  rewrite Hcols in Hcharts, Hdown.
  split.
  { unfold explore_shown. rewrite Hcols. apply in_or_app. right.
    simpl. right. right. apply in_or_app. right. apply in_or_app. right.
    simpl. tauto. }
  split; [|split; [|exact Hdown]].
  - destruct (charts _); [reflexivity|simpl in Hcharts; lia].
  - destruct (errors _); [reflexivity|simpl in Hcharts; lia].
Qed.

Lemma main_without_numeric_column_witness :
  uploaded_file on_text = Some text_only
  /\ @load_outcome PandasModel.pandas (Some text_only) session
     = Success text_table
  /\ @list_numeric_columns PandasModel.pandas (Some text_table) = Ret []
  /\ st_ok session = true
  /\ forall PF : PyFormat,
     exists es,
       displays (@main PandasModel.pandas PF on_text) session tt es
       /\ charts es = [] /\ downloads es = [].
Proof.
  split; [reflexivity|]. split; [reflexivity|]. split; [reflexivity|].
  split; [reflexivity|]. intros PF.
  destruct (main_without_numeric_column PF on_text text_only text_table session
              eq_refl eq_refl eq_refl eq_refl)
    as [es [Hrun [_ [Hc [_ Hd]]]]].
  exists es. auto.
Defined.

(** X11.  When the loaded table has a numeric column, every run of main
    ends with one download button, whose data is the CSV of the whole loaded
    table, whatever the head option, the number of rows shown, the chart
    kind and the state of the chart engines; and it shows exactly one
    chart, or else exactly one error message in its place. *)
Theorem main_download_whole_table :
  forall (PF : PyFormat) (wd : Widgets) (f : File) (df : DataFrame)
         (w : World) (first : string) (rest : list string),
    uploaded_file wd = Some f ->
    @load_outcome PandasModel.pandas (Some f) w = Success df ->
    @list_numeric_columns PandasModel.pandas (Some df) = Ret (first :: rest) ->
    st_ok w = true ->
    exists es,
      displays (@main PandasModel.pandas PF wd) w tt es
      /\ downloads es = [to_csv df]
      /\ (List.length (charts es) + List.length (errors es) = 1)%nat
      /\ exists before,
           es = before ++ [StDownloadButton "Télécharger le CSV" (to_csv df)
                                            "data.csv"].
Proof.
  intros PF wd f df w first rest Hup Hload Hnum Hst.
  simpl in Hnum.
  assert (Hcols : PandasModel.numeric_columns df = first :: rest)
    by congruence.
  clear Hnum.
  exists (page_header ++ explore_shown wd df w).
  split; [apply (main_loaded PF wd f df w Hup Hload Hst)|].
  pose proof (explore_shown_charts PF wd df w) as Hcharts.
  pose proof (explore_shown_downloads PF wd df w) as Hdown.
  rewrite Hcols in Hcharts, Hdown.
  split; [exact Hdown|]. split; [exact Hcharts|].
  unfold explore_shown. rewrite Hcols. cbv zeta.
  match goal with
  | |- context [drawn ?c ?n ?s ?b ?w] => generalize (drawn c n s b w)
  end.
  intros e. eexists.
  rewrite !app_comm_cons.
  repeat rewrite app_assoc.
  change [e; StMarkdown "---";
          StWrite "Vous pouvez télécharger les données affichées (CSV) :";
          StDownloadButton "Télécharger le CSV" (to_csv df) "data.csv"]
    with ([e; StMarkdown "---";
           StWrite "Vous pouvez télécharger les données affichées (CSV) :"]
          ++ [StDownloadButton "Télécharger le CSV" (to_csv df) "data.csv"]).
  rewrite app_assoc. reflexivity.
Qed.

Lemma main_download_whole_table_witness :
  uploaded_file head_five = Some six_rows
  /\ @load_outcome PandasModel.pandas (Some six_rows) without_engines
     = Success six_table
  /\ @list_numeric_columns PandasModel.pandas (Some six_table) = Ret ["x"]
  /\ st_ok without_engines = true
  /\ forall PF : PyFormat,
     exists es,
       displays (@main PandasModel.pandas PF head_five) without_engines tt es
       /\ downloads es = [to_csv six_table].
Proof.
  split; [reflexivity|]. split; [reflexivity|]. split; [reflexivity|].
  split; [reflexivity|]. intros PF.
  destruct (main_download_whole_table PF head_five six_rows six_table
              without_engines "x" [] eq_refl eq_refl eq_refl eq_refl)
    as [es [Hrun [Hd _]]].
  exists es. auto.
Defined.

(** X12.  When a table was loaded, what main passes to [st.dataframe]
    is the head of the loaded table, and only if the head option is set:
    with [max_rows] not negative it has min(max_rows, rows) rows, the same
    columns under the same names and dtypes, and no column of it is longer
    than [max_rows].  The other table main can show is the [describe()]
    summary, which is that of the whole loaded table and is written exactly
    when its checkbox is set. *)
Theorem main_shows_head :
  forall (PF : PyFormat) (wd : Widgets) (f : File) (df : DataFrame)
         (w : World),
    uploaded_file wd = Some f ->
    @load_outcome PandasModel.pandas (Some f) w = Success df ->
    st_ok w = true ->
    (0 <= max_rows wd)%Z ->
    exists es,
      displays (@main PandasModel.pandas PF wd) w tt es
      /\ displayed_tables es
         = (if show_head wd then [head (max_rows wd) df] else [])
      /\ described es = (if describe_checkbox wd then [df] else [])
      /\ df_nrows (head (max_rows wd) df)
         = Nat.min (Z.to_nat (max_rows wd)) (df_nrows df)
      /\ map col_name (df_columns (head (max_rows wd) df))
         = map col_name (df_columns df)
      /\ map col_dtype (df_columns (head (max_rows wd) df))
         = map col_dtype (df_columns df)
      /\ (forall c, In c (df_columns (head (max_rows wd) df)) ->
                    (List.length (col_values c) <= Z.to_nat (max_rows wd))%nat).
Proof.
  intros PF wd f df w Hup Hload Hst Hrows.
  exists (page_header ++ explore_shown wd df w).
  split; [apply (main_loaded PF wd f df w Hup Hload Hst)|].
  split; [apply explore_shown_tables|].
  split; [apply explore_shown_described|].
  assert (Hcount : head_count (max_rows wd) (df_nrows df)
                   = Nat.min (Z.to_nat (max_rows wd)) (df_nrows df)).
  { unfold head_count. destruct (0 <=? max_rows wd)%Z eqn:H; [reflexivity|].
    apply Z.leb_gt in H. lia. }
  unfold head; simpl. rewrite Hcount.
  split; [reflexivity|].
  split; [rewrite map_map; reflexivity|].
  split; [rewrite map_map; reflexivity|].
  intros c Hc. apply in_map_iff in Hc. destruct Hc as [c0 [<- _]]. simpl.
  rewrite length_firstn. lia.
Qed.

Lemma main_shows_head_witness :
  uploaded_file head_five = Some six_rows
  /\ @load_outcome PandasModel.pandas (Some six_rows) session = Success six_table
  /\ st_ok session = true
  /\ (0 <= max_rows head_five)%Z
  /\ forall PF : PyFormat,
     exists es,
       displays (@main PandasModel.pandas PF head_five) session tt es
       /\ displayed_tables es = [head 5 six_table]
       /\ described es = []
       /\ df_nrows (head 5 six_table) = 5%nat.
Proof.
  split; [reflexivity|]. split; [reflexivity|]. split; [reflexivity|].
  split; [discriminate|]. intros PF.
  destruct (main_shows_head PF head_five six_rows six_table session
              eq_refl eq_refl eq_refl ltac:(discriminate))
    as [es [Hrun [Htab [Hdesc [Hn _]]]]].
  exists es. auto.
Defined.

(** ** The charts *)

Lemma dropna_in :
  forall (s : NumSeries) (i : nat) (x : Q),
    In (i, x) (dropna s) <-> In (i, Some x) s.
Proof.
  intros s i x. induction s as [|[j [y|]] s IH]; simpl; [tauto| |].
  - rewrite IH. split; intros [H|H]; auto; left; congruence.
  - rewrite IH. split; [auto|intros [H|H]; [discriminate|exact H]].
Qed.

(** X14.  The line chart is drawn from every present entry of the series,
    each under its own index label, and from nothing else: an entry is
    plotted exactly when the series holds it as a value that is not NaN. *)
Theorem line_chart_plots_present_entries :
  forall (selected_col : string) (col_series : NumSeries) (hist_bins : Z)
         (w : World),
    st_ok w = true ->
    exists data,
      displays (render_chart Line selected_col col_series hist_bins) w tt
               [StLineChart data]
      /\ (forall i x, In (i, x) data <-> In (i, Some x) col_series)
      /\ (List.length data <= List.length col_series)%nat.
Proof.
  intros selected_col col_series hist_bins w Hst.
  exists (dropna col_series).
  split; [apply (render_chart_displays Line); exact Hst|].
  split; [apply dropna_in|].
  induction col_series as [|[j [y|]] s IH]; simpl; lia.
Qed.

Lemma line_chart_plots_present_entries_witness :
  st_ok session = true
  /\ exists data,
       displays (render_chart Line "v" one_missing 30) session tt
                [StLineChart data]
       /\ (forall i x, In (i, x) data <-> In (i, Some x) one_missing)
       /\ (List.length data <= List.length one_missing)%nat.
Proof.
  split; [reflexivity|].
  exact (line_chart_plots_present_entries "v" one_missing 30 session eq_refl).
Defined.

(** X15.  When neither chart engine works, the histogram branch raises
    nothing: it shows one error message and no chart.  When altair works,
    the outcome is the altair chart whether matplotlib works or not. *)
Theorem histogram_without_engines :
  forall (selected_col : string) (col_series : NumSeries) (hist_bins : Z)
         (w : World),
    st_ok w = true ->
    (altair_ok w = false -> pyplot_ok w = false ->
     exists msg,
       displays (render_chart Histogramme selected_col col_series hist_bins)
                w tt [StError msg])
    /\ (altair_ok w = true ->
        displays (render_chart Histogramme selected_col col_series hist_bins)
                 w tt
                 [StAltairChart selected_col (dropna col_series) hist_bins]).
Proof.
  intros selected_col col_series hist_bins w Hst.
  pose proof (render_chart_displays Histogramme selected_col col_series
                hist_bins w Hst) as H.
  unfold drawn in H. split.
  - intros Halt Hpy. rewrite Halt, Hpy in H. eexists. exact H.
  - intros Halt. rewrite Halt in H. exact H.
Qed.

Lemma histogram_without_engines_witness :
  st_ok without_engines = true
  /\ altair_ok without_engines = false
  /\ pyplot_ok without_engines = false
  /\ exists msg,
       displays (render_chart Histogramme "v" unit_interval 30)
                without_engines tt [StError msg].
Proof.
  split; [reflexivity|]. split; [reflexivity|]. split; [reflexivity|].
  exact (proj1 (histogram_without_engines "v" unit_interval 30 without_engines
                  eq_refl) eq_refl eq_refl).
Defined.


(** ** The notes service *)

Lemma order_by_id_desc_newest :
  forall (l : list Notes.Note) (n : Notes.Note),
    (forall m, In m l -> (Notes.id m < Notes.id n)%Z) ->
    Notes.order_by_id_desc (l ++ [n]) = n :: Notes.order_by_id_desc l.
Proof.
  intros l n. induction l as [|m l IH]; intros H; [reflexivity|].
  change (Notes.order_by_id_desc ((m :: l) ++ [n]))
    with (Notes.insert_desc m (Notes.order_by_id_desc (l ++ [n]))).
  rewrite IH by (intros m' Hm'; apply H; right; exact Hm').
  specialize (H m (or_introl eq_refl)).
  cbn [Notes.insert_desc].
  destruct (Notes.id n <=? Notes.id m)%Z eqn:Hle; [|reflexivity].
  apply Z.leb_le in Hle. lia.
Qed.

Lemma with_index_shift :
  forall (contents : list string) (base : Z) (k : nat),
    map (fun ic => Notes.mkNote (base + 1 + Z.of_nat (fst ic)) (snd ic))
        (with_index k contents)
    = map (fun ic => Notes.mkNote (base + Z.of_nat (fst ic)) (snd ic))
          (with_index (S k) contents).
Proof.
  intros contents base. induction contents as [|c l IH]; intros k; simpl;
    [reflexivity|].
  f_equal; [f_equal; lia|apply IH].
Qed.

(** The rows after any number of posts: the posts that can be stored
    take the next values of the sequence, in the order of insertion; the
    others leave no trace. *)
Lemma add_all_rows :
  forall (contents : list string) (db : Notes.Db),
    (Notes.last_id db
     + Z.of_nat (List.length (filter Notes.storable contents))
     <= Notes.serial_max)%Z ->
    Notes.rows (Notes.add_all contents db)
    = Notes.rows db
      ++ map (fun ic => Notes.mkNote (Notes.last_id db + Z.of_nat (fst ic))
                                     (snd ic))
             (with_index 1 (filter Notes.storable contents))
    /\ Notes.last_id (Notes.add_all contents db)
       = (Notes.last_id db
          + Z.of_nat (List.length (filter Notes.storable contents)))%Z.
Proof.
  intros contents. induction contents as [|c contents IH]; intros db Hmax.
  - simpl. rewrite app_nil_r. split; [reflexivity|lia].
  - change (Notes.add_all (c :: contents) db)
      with (Notes.add_all contents (snd (Notes.add_note c db))).
    cbn [filter] in *. unfold Notes.add_note.
    destruct (Notes.storable c) eqn:Hc; [|cbn [snd]; apply IH; exact Hmax].
    cbn [List.length] in Hmax.
    destruct (Notes.last_id db + 1 <=? Notes.serial_max)%Z eqn:Hle;
      [|apply Z.leb_gt in Hle; lia].
    cbn [snd].
    match goal with
    | |- context [Notes.add_all contents ?d] =>
        destruct (IH d) as [IHrows IHlast]; [cbn [Notes.last_id]; lia|]
    end.
    rewrite IHrows, IHlast. cbn [Notes.rows Notes.last_id List.length].
    split; [|lia].
    rewrite <- app_assoc. cbn [app with_index map fst snd].
    rewrite with_index_shift. repeat f_equal.
Qed.

Lemma with_index_bounds :
  forall (A : Type) (l : list A) (start i : nat) (x : A),
    In (i, x) (with_index start l) ->
    (start <= i < start + List.length l)%nat.
Proof.
  intros A l. induction l as [|y l IH]; intros start i x H; simpl in *;
    [contradiction|].
  destruct H as [H|H]; [inversion H; lia|].
  apply IH in H. lia.
Qed.

(** X16.  Posting a note that the driver accepts (text without NUL), to
    a table that was filled by posts alone, gives it the next id (one more
    than the number of notes stored), keeps its content as it was sent, and
    puts it first in the list that [list_notes] returns next; the notes
    listed before follow it unchanged.  A post that the driver refuses
    raises and leaves the table as it was. *)
Theorem add_note_then_list_notes :
  forall (contents : list string) (c : string),
    (Z.of_nat (List.length (filter Notes.storable contents))
     < Notes.serial_max)%Z ->
    let db := Notes.add_all contents Notes.empty_db in
    let stored := List.length (filter Notes.storable contents) in
    if Notes.storable c
    then fst (Notes.add_note c db)
         = Ret (Notes.mkNote (Z.of_nat stored + 1) c)
         /\ Notes.list_notes (snd (Notes.add_note c db))
            = Notes.mkNote (Z.of_nat stored + 1) c :: Notes.list_notes db
    else (exists e, fst (Notes.add_note c db) = Raise e)
         /\ snd (Notes.add_note c db) = db.
Proof.
  intros contents c Hmax db stored.
  destruct (add_all_rows contents Notes.empty_db) as [Hrows Hlast];
    [simpl; lia|].
  fold db in Hrows, Hlast. fold stored in Hrows, Hlast.
  simpl in Hrows, Hlast.
  unfold Notes.add_note.
  destruct (Notes.storable c); [|split; [eexists|]; reflexivity].
  rewrite Hlast.
  destruct (Z.of_nat stored + 1 <=? Notes.serial_max)%Z
    eqn:Hle; [|apply Z.leb_gt in Hle; unfold stored in Hle; lia].
  cbn [fst snd]. split; [reflexivity|].
  unfold Notes.list_notes. cbn [Notes.rows].
  apply order_by_id_desc_newest.
  intros m Hm. rewrite Hrows in Hm. apply in_map_iff in Hm.
  destruct Hm as [[i x] [<- Hin]]. apply with_index_bounds in Hin.
  fold stored in Hin. simpl. lia.
Qed.

Lemma add_note_then_list_notes_witness :
  (Z.of_nat (List.length (filter Notes.storable ["a"; "b"]))
   < Notes.serial_max)%Z
  /\ fst (Notes.add_note "c" (Notes.add_all ["a"; "b"] Notes.empty_db))
     = Ret (Notes.mkNote 3 "c")
  /\ Notes.list_notes
       (snd (Notes.add_note "c" (Notes.add_all ["a"; "b"] Notes.empty_db)))
     = Notes.mkNote 3 "c"
       :: Notes.list_notes (Notes.add_all ["a"; "b"] Notes.empty_db).
Proof.
  split; [reflexivity|].
  exact (add_note_then_list_notes ["a"; "b"] "c" eq_refl).
Defined.

Lemma order_by_id_desc_rev :
  forall (contents : list string) (start : nat),
    Notes.order_by_id_desc
      (map (fun ic => Notes.mkNote (Z.of_nat (fst ic)) (snd ic))
           (with_index start contents))
    = rev (map (fun ic => Notes.mkNote (Z.of_nat (fst ic)) (snd ic))
               (with_index start contents)).
Proof.
  intros contents. induction contents as [|c l IH]; intros start;
    [reflexivity|].
  cbn [with_index map rev fst snd].
  change (Notes.order_by_id_desc (?n :: ?r))
    with (Notes.insert_desc n (Notes.order_by_id_desc r)).
  rewrite IH.
  set (older := map _ (with_index (S start) l)).
  assert (Hrev : forall m, In m (rev older) ->
                           (Z.of_nat start < Notes.id m)%Z).
  { intros m Hm. apply in_rev in Hm. unfold older in Hm.
    apply in_map_iff in Hm.
    destruct Hm as [[i x] [<- Hin]]. apply with_index_bounds in Hin.
    simpl. lia. }
  clearbody older. clear IH.
  induction (rev older) as [|m r IHr]; [reflexivity|].
  cbn [Notes.insert_desc Notes.id app].
  destruct (Notes.id m <=? Z.of_nat start)%Z eqn:Hle.
  - apply Z.leb_le in Hle. specialize (Hrev m (or_introl eq_refl)). lia.
  - f_equal. apply IHr. intros m' Hm'. apply Hrev. right. exact Hm'.
Qed.

(** X17.  After any posts to the empty table, [list_notes] returns one
    note for each post that the driver accepted (text without NUL), newest
    first: their contents in reverse order of posting, under the ids from
    their number down to 1.  The posts that were refused are not listed and
    take no id. *)
Theorem list_notes_newest_first :
  forall (contents : list string),
    (Z.of_nat (List.length (filter Notes.storable contents))
     <= Notes.serial_max)%Z ->
    map Notes.content
        (Notes.list_notes (Notes.add_all contents Notes.empty_db))
    = rev (filter Notes.storable contents)
    /\ map Notes.id
           (Notes.list_notes (Notes.add_all contents Notes.empty_db))
       = rev (map Z.of_nat
                  (seq 1 (List.length (filter Notes.storable contents)))).
Proof.
  intros contents Hmax.
  destruct (add_all_rows contents Notes.empty_db) as [Hrows _];
    [simpl; lia|].
  unfold Notes.list_notes. rewrite Hrows. simpl.
  rewrite (order_by_id_desc_rev (filter Notes.storable contents) 1).
  rewrite !map_rev, !map_map. cbn [Notes.content Notes.id].
  generalize (filter Notes.storable contents). clear. intros posts.
  split; f_equal.
  - generalize 1%nat. induction posts as [|c l IH]; intros k;
      simpl; [reflexivity|]. f_equal. apply IH.
  - generalize 1%nat. induction posts as [|c l IH]; intros k;
      simpl; [reflexivity|]. f_equal. apply IH.
Qed.

Lemma list_notes_newest_first_witness :
  (Z.of_nat (List.length
               (filter Notes.storable
                       ["a"; String (ascii_of_nat 0) "b"; "c"]))
   <= Notes.serial_max)%Z
  /\ map Notes.content
         (Notes.list_notes
            (Notes.add_all ["a"; String (ascii_of_nat 0) "b"; "c"]
                           Notes.empty_db))
     = ["c"; "a"]
  /\ map Notes.id
         (Notes.list_notes
            (Notes.add_all ["a"; String (ascii_of_nat 0) "b"; "c"]
                           Notes.empty_db))
     = [2; 1]%Z.
Proof.
  split; [discriminate|].
  exact (list_notes_newest_first ["a"; String (ascii_of_nat 0) "b"; "c"]
           ltac:(discriminate)).
Defined.
